(** * py-ns: the transport, the disruption dispatcher and the endpoint modules

    A shallow embedding of the Python client library [py_ns] (a typed
    wrapper around the NS railway REST API) and the properties its
    specification states about it.

    Layout, leaf first, as in the repository:
    - Python values, dictionaries, truthiness, exceptions and the
      state-and-exception monad the methods run in;
    - [exceptions]        (src/py_ns/exceptions.py);
    - [HttpTransport]     (src/py_ns/_base/transport.py);
    - [DisruptionsAPI]    (src/py_ns/api/disruptions.py);
    - [StationsAPI]       (src/py_ns/api/stations.py);
    - [TravelAPI]         (src/py_ns/api/travel.py);
    - [NSClient]          (src/py_ns/client.py);
    then the theorems. *)

From Stdlib Require Import ZArith String List Floats.SpecFloat.
From stdpp Require Import base option list strings gmap.

Set Warnings "-register-all".
Set Default Proof Using "Type".

(** ** Python values *)

(** The model classes of [py_ns.models] that the endpoint modules name. *)
Inductive model_class :=
| Calamity | Disruption | PersonalDisruption
| StationsV2Response | StationsV3Response | StationV3Response
| RepresentationResponseDeparturesPayload
| RepresentationResponseArrivalsPayload
| RepresentationResponseJourney
| RepresentationResponsePricesResponseV3
| RepresentationResponsePrice
| StationResponse | CalamitiesResponse | TravelAdvice | Trip.

(** A Python float is an IEEE-754 binary64 number; the library only
    carries coordinates through, it never computes with them. *)
Definition pyfloat := spec_float.

(** The values that travel through the library: [None], scalars, lists,
    dictionaries (decoded JSON objects, query parameters) and validated
    model instances, an instance being its class and its attributes. *)
Inductive pval :=
| PNone
| PBool (b : bool)
| PInt (n : Z)
| PFloat (x : pyfloat)
| PStr (s : string)
| PList (xs : list pval)
| PDict (d : gmap string pval)
| PObj (cls : model_class) (attrs : gmap string pval).

(** [dict[str, Any]]; a notation, so that the map lemmas apply as they are. *)
Abbreviation pdict := (gmap string pval).
(** [dict[str, str]], the type of headers. *)
Abbreviation hdict := (gmap string string).

(** An optional argument [x: T | None] seen as a value. *)
Definition of_opt {A} (inj : A → pval) (x : option A) : pval :=
  match x with Some a => inj a | None => PNone end.

(** [value is not None] *)
Definition is_not_None (v : pval) : bool :=
  match v with PNone => false | _ => true end.

(** What a dictionary holds under a key after it was offered value [v]
    under the rule "store unless [None]": nothing new for [None]. *)
Definition stored (v : pval) : option pval :=
  if is_not_None v then Some v else None.

(** Python's truth protocol ([bool(x)], as used by [if x], [x or y],
    [not x]). *)
Class Truth (A : Type) := truth : A → bool.

#[global] Instance bool_truth : Truth bool := λ b, b.
#[global] Instance Z_truth : Truth Z := λ n, negb (n =? 0)%Z.
#[global] Instance string_truth : Truth string :=
  λ s, match s with EmptyString => false | _ => true end.
#[global] Instance float_truth : Truth pyfloat :=
  λ x, match x with S754_zero _ => false | _ => true end.
#[global] Instance list_truth {A} : Truth (list A) :=
  λ l, match l with [] => false | _ => true end.
#[global] Instance dict_truth {V} : Truth (gmap string V) :=
  λ d, negb (bool_decide (d = ∅)).
#[global] Instance option_truth {A} `{Truth A} : Truth (option A) :=
  λ o, match o with Some a => truth a | None => false end.
#[global] Instance pval_truth : Truth pval :=
  λ v, match v with
       | PNone => false
       | PBool b => truth b
       | PInt n => truth n
       | PFloat x => truth x
       | PStr s => truth s
       | PList xs => truth xs
       | PDict d => truth d
       | PObj _ _ => true
       end.

(** [x or y] *)
Definition py_or (x y : pval) : pval := if truth x then x else y.

(** [datetime.datetime]: the library only calls [isoformat()] on it and
    tests it for truth; an instance is always true. *)
Record datetime := { isoformat : string }.
#[global] Instance datetime_truth : Truth datetime := λ _, true.

(** A member of a Python [Enum]. The enumerations of [py_ns.models]
    ([DisruptionType], [TravelClass]) are not part of the sources; the
    endpoint modules only read a member's [value], its wire string, and
    test it for truth (a member is true: its wire strings are not
    empty). *)
Record Enum := { name : string; value : string }.
#[global] Instance Enum_truth : Truth Enum := λ _, true.

(** [f(x) if x else None] *)
Definition if_truthy {A} `{Truth A} (x : option A) (f : A → pval) : pval :=
  match x with
  | Some a => if truth a then f a else PNone
  | None => PNone
  end.

(** [sep.join(parts)] *)
Fixpoint join (sep : string) (parts : list string) : string :=
  match parts with
  | [] => ""
  | [s] => s
  | s :: rest => s +:+ sep +:+ join sep rest
  end.

(** ** src/py_ns/exceptions.py *)

Module exceptions.

(** [APIError] and its four subclasses. *)
Inductive api_error :=
| APIError
| AuthenticationError
| NotFoundError
| RateLimitError
| ServerError.

(** The exceptions a call can end with: an API error carrying
    [(message, status_code)] as [APIError.__init__] stores them, and
    the errors of the interpreter and of the libraries underneath. *)
Inductive exn :=
| Api (cls : api_error) (message : pval) (status_code : Z)
| JSONDecodeError
| ValidationError (cls : model_class)
| TypeError
| AttributeError
| RuntimeError
| OtherError (name : string).

End exceptions.
Export exceptions.

(** ** Results and effects *)

(** A Python call either returns or raises. *)
Inductive result (A : Type) :=
| Returned (a : A)
| Raised (e : exn).
Arguments Returned {A} a.
Arguments Raised {A} e.

#[global] Instance result_ret : MRet result := λ A a, Returned a.
#[global] Instance result_bind : MBind result :=
  λ A B f m, match m with Returned a => f a | Raised e => Raised e end.
#[global] Instance result_fmap : FMap result :=
  λ A B f m, match m with Returned a => Returned (f a) | Raised e => Raised e end.

(** [try: body  except Exception: handler] *)
Definition try_except {A} (body : result A) (handler : exn → result A) : result A :=
  match body with Returned a => Returned a | Raised e => handler e end.

(** [getattr(obj, name)] on a model instance. *)
Definition getattr (obj : pval) (name : string) : result pval :=
  match obj with
  | PObj _ attrs =>
      match attrs !! name with
      | Some v => Returned v
      | None => Raised AttributeError
      end
  | _ => Raised AttributeError
  end.

(** The one-character strings of a string. *)
Fixpoint chars (s : string) : list string :=
  match s with
  | EmptyString => []
  | String c rest => String c EmptyString :: chars rest
  end.

(** [for item in data]: a list yields its items, a dictionary its keys
    (the map keeps no insertion order; every consumer below rejects a
    key at once), a string its characters; [None], numbers and booleans
    are not iterable. *)
Definition iter (data : pval) : result (list pval) :=
  match data with
  | PList xs => Returned xs
  | PDict d => Returned (PStr <$> (map_to_list d).*1)
  | PStr s => Returned (PStr <$> chars s)
  | _ => Raised TypeError
  end.

(** [[f(item) for item in items]]: left to right, the first exception
    ends the comprehension. *)
Fixpoint comprehension {A B} (f : A → result B) (items : list A) : result (list B) :=
  match items with
  | [] => Returned []
  | item :: rest =>
      y ← f item;
      ys ← comprehension f rest;
      Returned (y :: ys)
  end.

(** *** Requests, responses, warnings *)

Inductive http_method := GET | POST.

(** One call of [httpx.Client.get] / [httpx.Client.post], with the
    arguments as the transport passes them. *)
Record request := Request {
  req_method : http_method;
  req_url : string;
  req_params : option pdict;
  req_json : option pdict;
  req_headers : option hdict;
}.

(** An [httpx.Response] as the transport observes it: [status_code],
    [content] (bytes), [text], and what [json()] does: decode to a value,
    or raise when [decoded] is [None]. *)
Record Response := {
  status_code : Z;
  content : string;
  text : string;
  decoded : option pval;
}.

(** [response.json()] *)
Definition Response_json (response : Response) : result pval :=
  match decoded response with
  | Some v => Returned v
  | None => Raised JSONDecodeError
  end.

(** [response.is_success]: httpx defines it as [200 <= status_code <= 299]. *)
Definition is_success (response : Response) : bool :=
  ((200 <=? status_code response) && (status_code response <=? 299))%Z.

Inductive warning_category := DeprecationWarning.

(** One [warnings.warn(message, category, stacklevel=...)]. *)
Record warning := Warning {
  warn_message : string;
  warn_category : warning_category;
  warn_stacklevel : nat;
}.

(** What lies outside the repository: the server behind httpx (its
    answer may depend on what was sent before) and the pydantic models of
    [py_ns.models] ([model_validate] yields the attributes of the
    instance, or nothing when validation fails; [model_dump] is
    [model_dump(by_alias=True)]). *)
Class External := {
  network : list request → request → Response;
  model_validate : model_class → pval → option pdict;
  model_dump : pval → pdict;
}.

(** The state a client works on: the configuration given to
    [httpx.Client], whether the pool was closed and how often [close] was
    called on it, the requests sent so far and the warnings emitted so
    far (both oldest first). *)
Record world := World {
  client_headers : hdict;
  client_timeout : pyfloat;
  client_closed : bool;
  close_calls : nat;
  sent : list request;
  emitted : list warning;
}.

(** The two logs grow at the end. *)
Definition log_request (req : request) (w : world) : world :=
  World (client_headers w) (client_timeout w) (client_closed w) (close_calls w)
        (sent w ++ [req]) (emitted w).

Definition log_warnings (ws : list warning) (w : world) : world :=
  World (client_headers w) (client_timeout w) (client_closed w) (close_calls w)
        (sent w) (emitted w ++ ws).

(** Methods: state passing with exceptions. *)
Definition M (A : Type) : Type := world → result A * world.

#[global] Instance M_ret : MRet M := λ A a w, (Returned a, w).
#[global] Instance M_bind : MBind M :=
  λ A B f m w,
    match m w with
    | (Returned a, w') => f a w'
    | (Raised e, w') => (Raised e, w')
    end.

(** A computation without effects, inside a method. *)
Definition lift {A} (r : result A) : M A := λ w, (r, w).

(** [warnings.warn(message, DeprecationWarning, stacklevel=2)], with the
    warning handed to the sink (the filter that decides whether it is
    shown belongs to the interpreter). *)
Definition warnings_warn (message : string) (category : warning_category)
    (stacklevel : nat) : M unit :=
  λ w, (Returned (), log_warnings [Warning message category stacklevel] w).

(** [Model.model_validate(data)] *)
Definition validate `{External} (cls : model_class) (data : pval) : result pval :=
  match model_validate cls data with
  | Some attrs => Returned (PObj cls attrs)
  | None => Raised (ValidationError cls)
  end.

(** ** src/py_ns/_base/transport.py *)

Module HttpTransport.
Section transport.
Context `{External}.

(** [30.0], the default of [timeout]. *)
Definition default_timeout : pyfloat := S754_finite false 8444249301319680 (-48).

(** [HttpTransport.__init__]: a fresh [httpx.Client] with the
    subscription key as a default header. *)
Definition __init__ (api_key : string) (timeout : option pyfloat) : world :=
  let timeout := default default_timeout timeout in
  World {[ "Ocp-Apim-Subscription-Key" := api_key ]} timeout false 0 [] [].

(** [httpx.Client.request]: a closed client refuses to send; an open
    one sends and hands back the server's response. *)
Definition client_request (req : request) : M Response :=
  λ w,
    if client_closed w then (Raised RuntimeError, w)
    else (Returned (network (sent w) req), log_request req w).

(** [_extract_error_message]: the [message] entry of a JSON object
    body, else the raw text. The [try] body either returns early
    ([Some]) or falls through ([None]). *)
Definition _extract_error_message (response : Response) : result pval :=
  early ← try_except
    (data ← Response_json response;
     match data with
     | PDict d => Returned (Some (default (PStr (text response)) (d !! "message")))
     | _ => Returned None
     end)
    (λ _, Returned None);
  match early with
  | Some message => Returned message
  | None => Returned (PStr (text response))
  end.

(** [_handle_response] *)
Definition _handle_response (response : Response) : result pval :=
  if is_success response then
    if negb (truth (content response)) then Returned PNone
    else Response_json response
  else
    message ← _extract_error_message response;
    let status := status_code response in
    if ((status =? 401) || (status =? 403))%Z then
      Raised (Api AuthenticationError message (status_code response))
    else if (status =? 404)%Z then
      Raised (Api NotFoundError message (status_code response))
    else if (status =? 429)%Z then
      Raised (Api RateLimitError message (status_code response))
    else if (500 <=? status)%Z then
      Raised (Api ServerError message (status_code response))
    else
      Raised (Api APIError message (status_code response)).

(** [get] *)
Definition get (url : string) (params : option pdict) (headers : option hdict)
    : M pval :=
  response ← client_request (Request GET url params None headers);
  lift (_handle_response response).

(** [post] *)
Definition post (url : string) (json : option pdict) (headers : option hdict)
    : M pval :=
  response ← client_request (Request POST url None json headers);
  lift (_handle_response response).

(** [close]: [httpx.Client.close()] *)
Definition close : M unit :=
  λ w, (Returned (),
        World (client_headers w) (client_timeout w) true
              (S (close_calls w)) (sent w) (emitted w)).

(** [__enter__] *)
Definition __enter__ : M unit := mret ().

(** [__exit__(self, *args)] *)
Definition __exit__ {T} (args : list T) : M pval :=
  close;; mret PNone.

End transport.
End HttpTransport.

(** ** src/py_ns/api/disruptions.py *)

Module DisruptionsAPI.
Section disruptions.
Context `{External}.

Definition DisruptionType := Enum.

Definition _BASE_URL : string := "https://gateway.apiportal.ns.nl/disruptions".

(** [item.get(key)]: only a dictionary has [get]. *)
Definition item_get (item : pval) (key : string) : result pval :=
  match item with
  | PDict d => Returned (default PNone (d !! key))
  | _ => Raised AttributeError
  end.

(** [v == s] for a string literal [s] *)
Definition eq_str (v : pval) (s : string) : bool :=
  match v with PStr s' => String.eqb s' s | _ => false end.

(** [_parse_item]: dispatch a raw item to the right model. *)
Definition _parse_item (item : pval) : result pval :=
  type ← item_get item "type";
  if eq_str type "CALAMITY" then validate Calamity item
  else validate Disruption item.

(** The query parameters of [list]. *)
Definition list_params (is_active : option bool)
    (disruption_type : option DisruptionType) : pdict :=
  let params : pdict := ∅ in
  let params :=
    match is_active with
    | Some b => <["isActive" := PBool b]> params
    | None => params
    end in
  let params :=
    match disruption_type with
    | Some t => <["type" := PStr (value t)]> params
    | None => params
    end in
  params.

(** The headers of [list], [get] and [list_for_station]: each method
    starts from [None] and sets [Accept-Language] when a language is
    given. *)
Definition list_headers (language : option string) : option hdict :=
  let headers : option hdict := None in
  match language with
  | Some l => Some {[ "Accept-Language" := l ]}
  | None => headers
  end.

Definition get_headers (language : option string) : option hdict :=
  let headers : option hdict := None in
  match language with
  | Some l => Some {[ "Accept-Language" := l ]}
  | None => headers
  end.

Definition list_for_station_headers (language : option string) : option hdict :=
  let headers : option hdict := None in
  match language with
  | Some l => Some {[ "Accept-Language" := l ]}
  | None => headers
  end.

(** [[_parse_item(item) for item in data]] *)
Definition parse_items (data : pval) : result pval :=
  items ← iter data;
  PList <$> comprehension _parse_item items.

(** [get] *)
Definition get (disruption_type : DisruptionType) (disruption_id : string)
    (language : option string) : M pval :=
  let headers := get_headers language in
  data ← HttpTransport.get
           (_BASE_URL +:+ "/v3/" +:+ value disruption_type +:+ "/" +:+ disruption_id)
           None headers;
  lift (_parse_item data).

(** [list_for_station] *)
Definition list_for_station (station_code : string) (language : option string)
    : M pval :=
  let headers := list_for_station_headers language in
  data ← HttpTransport.get (_BASE_URL +:+ "/v3/station/" +:+ station_code)
           None headers;
  lift (parse_items data).

(** [list_personal] *)
Definition list_personal (push_id : string) : M pval :=
  data ← HttpTransport.get (_BASE_URL +:+ "/v1/personal-disruptions")
           None (Some {[ "x-ns-push-id" := push_id ]});
  lift (items ← iter data;
        PList <$> comprehension (validate PersonalDisruption) items).

(** [sync_saved_trips] *)
Definition sync_saved_trips (api_key : string) (saved_trip : pval) : M pval :=
  _ ← HttpTransport.post
        (_BASE_URL +:+ "/v1/personal-disruptions/sync/saved-trips")
        (Some (model_dump saved_trip))
        (Some {[ "x-api-key" := api_key ]});
  mret PNone.

(** [list] *)
Definition list (is_active : option bool) (disruption_type : option DisruptionType)
    (language : option string) : M pval :=
  let params := list_params is_active disruption_type in
  let headers := list_headers language in
  data ← HttpTransport.get (_BASE_URL +:+ "/v3") (Some params) headers;
  lift (parse_items data).

End disruptions.
End DisruptionsAPI.

(** ** src/py_ns/api/stations.py *)

Module StationsAPI.
Section stations.
Context `{External}.

Definition _BASE_URL : string := "https://gateway.apiportal.ns.nl/nsapp-stations".

(** The query parameters of [list_v2]. *)
Definition list_v2_params (query country_codes : option string)
    (include_non_plannable : option bool) (limit : option Z) : pdict :=
  let params : pdict := ∅ in
  let params :=
    match query with Some q => <["q" := PStr q]> params | None => params end in
  let params :=
    match country_codes with
    | Some c => <["countryCodes" := PStr c]> params
    | None => params
    end in
  let params :=
    match include_non_plannable with
    | Some b => <["includeNonPlannableStations" := PBool b]> params
    | None => params
    end in
  let params :=
    match limit with Some n => <["limit" := PInt n]> params | None => params end in
  params.

(** [list_v2] *)
Definition list_v2 (query country_codes : option string)
    (include_non_plannable : option bool) (limit : option Z) : M pval :=
  let params := list_v2_params query country_codes include_non_plannable limit in
  data ← HttpTransport.get (_BASE_URL +:+ "/v2") (Some params) None;
  lift (response ← validate StationsV2Response data; getattr response "payload").

(** The query parameters of [list_nearest_v2]. *)
Definition list_nearest_v2_params (lat lng : pyfloat) (limit : option Z)
    (include_non_plannable : option bool) : pdict :=
  let params : pdict := <["lng" := PFloat lng]> {[ "lat" := PFloat lat ]} in
  let params :=
    match limit with Some n => <["limit" := PInt n]> params | None => params end in
  let params :=
    match include_non_plannable with
    | Some b => <["includeNonPlannableStations" := PBool b]> params
    | None => params
    end in
  params.

(** [list_nearest_v2] *)
Definition list_nearest_v2 (lat lng : pyfloat) (limit : option Z)
    (include_non_plannable : option bool) : M pval :=
  let params := list_nearest_v2_params lat lng limit include_non_plannable in
  data ← HttpTransport.get (_BASE_URL +:+ "/v2/nearest") (Some params) None;
  lift (response ← validate StationsV2Response data; getattr response "payload").

(** The query parameters of [list_v3]. *)
Definition list_v3_params (query country_codes : option string)
    (include_non_plannable : option bool) (limit : option Z) : pdict :=
  let params : pdict := ∅ in
  let params :=
    match query with Some q => <["q" := PStr q]> params | None => params end in
  let params :=
    match country_codes with
    | Some c => <["countryCodes" := PStr c]> params
    | None => params
    end in
  let params :=
    match include_non_plannable with
    | Some b => <["includeNonPlannableStations" := PBool b]> params
    | None => params
    end in
  let params :=
    match limit with Some n => <["limit" := PInt n]> params | None => params end in
  params.

(** [list_v3] *)
Definition list_v3 (query country_codes : option string)
    (include_non_plannable : option bool) (limit : option Z) : M pval :=
  let params := list_v3_params query country_codes include_non_plannable limit in
  data ← HttpTransport.get (_BASE_URL +:+ "/v3") (Some params) None;
  lift (response ← validate StationsV3Response data; getattr response "payload").

(** The query parameters of [list_nearest_v3]. *)
Definition list_nearest_v3_params (lat lng : pyfloat) (limit : option Z)
    (include_non_plannable : option bool) : pdict :=
  let params : pdict := <["lng" := PFloat lng]> {[ "lat" := PFloat lat ]} in
  let params :=
    match limit with Some n => <["limit" := PInt n]> params | None => params end in
  let params :=
    match include_non_plannable with
    | Some b => <["includeNonPlannableStations" := PBool b]> params
    | None => params
    end in
  params.

(** [list_nearest_v3] *)
Definition list_nearest_v3 (lat lng : pyfloat) (limit : option Z)
    (include_non_plannable : option bool) : M pval :=
  let params := list_nearest_v3_params lat lng limit include_non_plannable in
  data ← HttpTransport.get (_BASE_URL +:+ "/v3/nearest") (Some params) None;
  lift (response ← validate StationsV3Response data; getattr response "payload").

(** The query parameters of [get]. *)
Definition get_params (uic_code : string) (uic_cd_code : option string) : pdict :=
  let params : pdict := {[ "uicCode" := PStr uic_code ]} in
  let params :=
    match uic_cd_code with
    | Some c => <["uicCdCode" := PStr c]> params
    | None => params
    end in
  params.

(** [get] *)
Definition get (uic_code : string) (uic_cd_code : option string) : M pval :=
  let params := get_params uic_code uic_cd_code in
  data ← HttpTransport.get (_BASE_URL +:+ "/v1/station") (Some params) None;
  lift (response ← validate StationV3Response data; getattr response "payload").

End stations.
End StationsAPI.

(** ** src/py_ns/api/travel.py *)

Module TravelAPI.

Definition TravelClass := Enum.

Definition _BASE_URL : string := "https://gateway.apiportal.ns.nl/reisinformatie-api".

(** The deprecation message templates, [str.format] applied. *)
Definition _DISRUPTIONS_DEPRECATION (method replacement : string) : string :=
  method +:+ " is deprecated by NS. Use " +:+ replacement +:+
  " instead, which uses the " +:+
  "dedicated Disruptions API (https://gateway.apiportal.ns.nl/disruptions).".

Definition _STATIONS_DEPRECATION (method : string) : string :=
  method +:+ " is deprecated by NS. Use the dedicated Stations API at " +:+
  "https://gateway.apiportal.ns.nl/nsapp-stations instead.".

(** [_set]: add key/value to params only when value is not None. *)
Definition _set (params : pdict) (key : string) (value : pval) : pdict :=
  if is_not_None value then <[key := value]> params else params.

(** The keyword arguments of [plan_trip], each [None] when the caller
    did not pass it. *)
Record plan_trip_kwargs := {
  origin_uic_code : option string;
  origin_lat : option pyfloat;
  origin_lng : option pyfloat;
  origin_name : option string;
  destination_uic_code : option string;
  destination_lat : option pyfloat;
  destination_lng : option pyfloat;
  destination_name : option string;
  via_station : option string;
  via_uic_code : option string;
  via_lat : option pyfloat;
  via_lng : option pyfloat;
  via_wait_time : option Z;
  date_time : option datetime;
  search_for_arrival : option bool;
  language : option string;
  context : option string;
  add_change_time : option Z;
  passing : option bool;
  local_trains_only : option bool;
  exclude_high_speed_trains : option bool;
  exclude_trains_with_reservation_required : option bool;
  travel_request_type : option string;
  filter_transport_mode : option string;
  disabled_transport_modalities : option (list string);
  origin_walk : option bool;
  origin_bike : option bool;
  origin_car : option bool;
  destination_walk : option bool;
  destination_bike : option bool;
  destination_car : option bool;
  first_mile_modality : option string;
  last_mile_modality : option string;
  entire_trip_modality : option string;
  travel_assistance : option bool;
  search_for_accessible_trip : option bool;
  accessibility_equipment1 : option string;
  accessibility_equipment2 : option string;
  product : option string;
  discount : option string;
  travel_class : option Z;
  authorization : option string;
  nsr : option Z;
  departure : option bool;
  shorter_change : option bool;
  minimal_change_time : option Z;
  origin_accessible : option bool;
  travel_assistance_transfer_time : option Z;
}.

(** A list of strings as a value. *)
Definition PStrs (l : list string) : pval := PList (PStr <$> l).

Section travel.
Context `{External}.

(** The query parameters of [get_departures]; [max_journeys] is 40
    when not given. *)
Definition get_departures_params (station : string) (uic_code : option string)
    (date_time : option datetime) (max_journeys : option Z)
    (language : option string) : pdict :=
  let max_journeys := default 40%Z max_journeys in
  let params : pdict := {[ "maxJourneys" := PInt max_journeys ]} in
  let params :=
    if truth station then <["station" := PStr station]> params else params in
  let params :=
    match uic_code with Some c => <["uicCode" := PStr c]> params | None => params end in
  let params :=
    match date_time with
    | Some t => <["dateTime" := PStr (isoformat t)]> params
    | None => params
    end in
  let params :=
    match language with Some l => <["lang" := PStr l]> params | None => params end in
  params.

(** [get_departures] *)
Definition get_departures (station : string) (uic_code : option string)
    (date_time : option datetime) (max_journeys : option Z)
    (language : option string) : M pval :=
  let params := get_departures_params station uic_code date_time max_journeys language in
  data ← HttpTransport.get (_BASE_URL +:+ "/api/v2/departures") (Some params) None;
  lift (response ← validate RepresentationResponseDeparturesPayload data;
        payload ← getattr response "payload";
        getattr payload "departures").

(** The query parameters of [get_arrivals]. *)
Definition get_arrivals_params (station : string) (uic_code : option string)
    (date_time : option datetime) (max_journeys : option Z)
    (language : option string) : pdict :=
  let max_journeys := default 40%Z max_journeys in
  let params : pdict := {[ "maxJourneys" := PInt max_journeys ]} in
  let params :=
    if truth station then <["station" := PStr station]> params else params in
  let params :=
    match uic_code with Some c => <["uicCode" := PStr c]> params | None => params end in
  let params :=
    match date_time with
    | Some t => <["dateTime" := PStr (isoformat t)]> params
    | None => params
    end in
  let params :=
    match language with Some l => <["lang" := PStr l]> params | None => params end in
  params.

(** [get_arrivals] *)
Definition get_arrivals (station : string) (uic_code : option string)
    (date_time : option datetime) (max_journeys : option Z)
    (language : option string) : M pval :=
  let params := get_arrivals_params station uic_code date_time max_journeys language in
  data ← HttpTransport.get (_BASE_URL +:+ "/api/v2/arrivals") (Some params) None;
  lift (response ← validate RepresentationResponseArrivalsPayload data;
        payload ← getattr response "payload";
        getattr payload "arrivals").

(** The query parameters of [get_journey]; [omit_crowd_forecast] is
    [False] when not given. *)
Definition get_journey_params (train : option Z) (journey_id : option string)
    (date_time : option datetime)
    (departure_uic_code transfer_uic_code arrival_uic_code : option string)
    (omit_crowd_forecast : option bool) : pdict :=
  let omit_crowd_forecast := default false omit_crowd_forecast in
  let params : pdict := {[ "omitCrowdForecast" := PBool omit_crowd_forecast ]} in
  let params :=
    match train with Some n => <["train" := PInt n]> params | None => params end in
  let params :=
    match journey_id with Some i => <["id" := PStr i]> params | None => params end in
  let params :=
    match date_time with
    | Some t => <["dateTime" := PStr (isoformat t)]> params
    | None => params
    end in
  let params :=
    match departure_uic_code with
    | Some c => <["departureUicCode" := PStr c]> params
    | None => params
    end in
  let params :=
    match transfer_uic_code with
    | Some c => <["transferUicCode" := PStr c]> params
    | None => params
    end in
  let params :=
    match arrival_uic_code with
    | Some c => <["arrivalUicCode" := PStr c]> params
    | None => params
    end in
  params.

(** [get_journey] *)
Definition get_journey (train : option Z) (journey_id : option string)
    (date_time : option datetime)
    (departure_uic_code transfer_uic_code arrival_uic_code : option string)
    (omit_crowd_forecast : option bool) : M pval :=
  let params := get_journey_params train journey_id date_time departure_uic_code
                  transfer_uic_code arrival_uic_code omit_crowd_forecast in
  data ← HttpTransport.get (_BASE_URL +:+ "/api/v2/journey") (Some params) None;
  lift (response ← validate RepresentationResponseJourney data;
        getattr response "payload").

(** The deprecation warnings of [plan_trip], one [if] per deprecated
    parameter. *)
Definition plan_trip_warnings (kw : plan_trip_kwargs) : M unit :=
  (if departure kw is Some _ then
     warnings_warn
       "The 'departure' parameter is deprecated. Use 'search_for_arrival' instead."
       DeprecationWarning 2
   else mret ());;
  (if shorter_change kw is Some _ then
     warnings_warn
       ("The 'shorter_change' parameter is deprecated and has no effect. " +:+
        "NS removed this functionality.")
       DeprecationWarning 2
   else mret ());;
  (if minimal_change_time kw is Some _ then
     warnings_warn
       ("The 'minimal_change_time' parameter is deprecated. " +:+
        "Use 'add_change_time' instead.")
       DeprecationWarning 2
   else mret ());;
  (if origin_accessible kw is Some _ then
     warnings_warn
       ("The 'origin_accessible' parameter is deprecated. " +:+
        "Use 'travel_assistance' instead.")
       DeprecationWarning 2
   else mret ());;
  (if travel_assistance_transfer_time kw is Some _ then
     warnings_warn
       ("The 'travel_assistance_transfer_time' parameter is deprecated. " +:+
        "Use 'add_change_time' instead.")
       DeprecationWarning 2
   else mret ()).

(** The query parameters of [plan_trip]; [search_for_arrival] is
    [False] when not given. *)
Definition plan_trip_params (from_station to_station : option string)
    (kw : plan_trip_kwargs) : pdict :=
  let search_for_arrival := default false (search_for_arrival kw) in
  let params : pdict := ∅ in
  let params := _set params "fromStation" (of_opt PStr from_station) in
  let params := _set params "toStation" (of_opt PStr to_station) in
  let params := _set params "originUicCode" (of_opt PStr (origin_uic_code kw)) in
  let params := _set params "originLat" (of_opt PFloat (origin_lat kw)) in
  let params := _set params "originLng" (of_opt PFloat (origin_lng kw)) in
  let params := _set params "originName" (of_opt PStr (origin_name kw)) in
  let params := _set params "destinationUicCode" (of_opt PStr (destination_uic_code kw)) in
  let params := _set params "destinationLat" (of_opt PFloat (destination_lat kw)) in
  let params := _set params "destinationLng" (of_opt PFloat (destination_lng kw)) in
  let params := _set params "destinationName" (of_opt PStr (destination_name kw)) in
  let params := _set params "viaStation" (of_opt PStr (via_station kw)) in
  let params := _set params "viaUicCode" (of_opt PStr (via_uic_code kw)) in
  let params := _set params "viaLat" (of_opt PFloat (via_lat kw)) in
  let params := _set params "viaLng" (of_opt PFloat (via_lng kw)) in
  let params := _set params "viaWaitTime" (of_opt PInt (via_wait_time kw)) in
  let params := _set params "dateTime"
                  (if_truthy (date_time kw) (λ t, PStr (isoformat t))) in
  let params := _set params "searchForArrival" (py_or (PBool search_for_arrival) PNone) in
  let params := _set params "lang" (of_opt PStr (language kw)) in
  let params := _set params "context" (of_opt PStr (context kw)) in
  let params := _set params "addChangeTime" (of_opt PInt (add_change_time kw)) in
  let params := _set params "passing" (of_opt PBool (passing kw)) in
  let params := _set params "localTrainsOnly" (of_opt PBool (local_trains_only kw)) in
  let params := _set params "excludeHighSpeedTrains"
                  (of_opt PBool (exclude_high_speed_trains kw)) in
  let params := _set params "excludeTrainsWithReservationRequired"
                  (of_opt PBool (exclude_trains_with_reservation_required kw)) in
  let params := _set params "travelRequestType" (of_opt PStr (travel_request_type kw)) in
  let params := _set params "filterTransportMode" (of_opt PStr (filter_transport_mode kw)) in
  let params := _set params "disabledTransportModalities"
                  (of_opt PStrs (disabled_transport_modalities kw)) in
  let params := _set params "originWalk" (of_opt PBool (origin_walk kw)) in
  let params := _set params "originBike" (of_opt PBool (origin_bike kw)) in
  let params := _set params "originCar" (of_opt PBool (origin_car kw)) in
  let params := _set params "destinationWalk" (of_opt PBool (destination_walk kw)) in
  let params := _set params "destinationBike" (of_opt PBool (destination_bike kw)) in
  let params := _set params "destinationCar" (of_opt PBool (destination_car kw)) in
  let params := _set params "firstMileModality" (of_opt PStr (first_mile_modality kw)) in
  let params := _set params "lastMileModality" (of_opt PStr (last_mile_modality kw)) in
  let params := _set params "entireTripModality" (of_opt PStr (entire_trip_modality kw)) in
  let params := _set params "travelAssistance" (of_opt PBool (travel_assistance kw)) in
  let params := _set params "searchForAccessibleTrip"
                  (of_opt PBool (search_for_accessible_trip kw)) in
  let params := _set params "accessibilityEquipment1"
                  (of_opt PStr (accessibility_equipment1 kw)) in
  let params := _set params "accessibilityEquipment2"
                  (of_opt PStr (accessibility_equipment2 kw)) in
  let params := _set params "product" (of_opt PStr (product kw)) in
  let params := _set params "discount" (of_opt PStr (discount kw)) in
  let params := _set params "travelClass" (of_opt PInt (travel_class kw)) in
  let params := _set params "nsr" (of_opt PInt (nsr kw)) in
  (* Deprecated: pass through if provided *)
  let params := _set params "departure" (of_opt PBool (departure kw)) in
  let params := _set params "shorterChange" (of_opt PBool (shorter_change kw)) in
  let params := _set params "minimalChangeTime" (of_opt PInt (minimal_change_time kw)) in
  let params := _set params "originAccessible" (of_opt PBool (origin_accessible kw)) in
  let params := _set params "travelAssistanceTransferTime"
                  (of_opt PInt (travel_assistance_transfer_time kw)) in
  params.

(** The headers of [plan_trip]. *)
Definition plan_trip_headers (kw : plan_trip_kwargs) : option hdict :=
  let headers : option hdict := None in
  match authorization kw with
  | Some a => Some {[ "Authorization" := a ]}
  | None => headers
  end.

(** [plan_trip] *)
Definition plan_trip (from_station to_station : option string)
    (kw : plan_trip_kwargs) : M pval :=
  plan_trip_warnings kw;;
  let params := plan_trip_params from_station to_station kw in
  let headers := plan_trip_headers kw in
  data ← HttpTransport.get (_BASE_URL +:+ "/api/v3/trips") (Some params) headers;
  lift (validate TravelAdvice data).

(** The query parameters of [get_trip]; [travel_request_type] is
    ['DEFAULT'] when not given. *)
Definition get_trip_params (ctx_recon : string) (date : option datetime)
    (travel_request_type product discount : option string)
    (travel_class nsr : option Z) (source_ctx_recon : option bool) : pdict :=
  let travel_request_type := default "DEFAULT" travel_request_type in
  let params : pdict :=
    <["travelRequestType" := PStr travel_request_type]>
      {[ "ctxRecon" := PStr ctx_recon ]} in
  let params := _set params "date" (if_truthy date (λ t, PStr (isoformat t))) in
  let params := _set params "product" (of_opt PStr product) in
  let params := _set params "discount" (of_opt PStr discount) in
  let params := _set params "travelClass" (of_opt PInt travel_class) in
  let params := _set params "nsr" (of_opt PInt nsr) in
  let params := _set params "sourceCtxRecon" (of_opt PBool source_ctx_recon) in
  params.

(** The headers of [get_trip]: [{**(headers or {}), "lang": language}]
    keeps an authorization header set just before. *)
Definition get_trip_headers (authorization language : option string)
    : option hdict :=
  let headers : option hdict := None in
  let headers :=
    match authorization with
    | Some a => Some {[ "Authorization" := a ]}
    | None => headers
    end in
  let headers :=
    match language with
    | Some l =>
        Some (<["lang" := l]> (if truth headers then default ∅ headers else ∅))
    | None => headers
    end in
  headers.

(** [get_trip] *)
Definition get_trip (ctx_recon : string) (date : option datetime)
    (travel_request_type product discount : option string)
    (travel_class : option Z) (authorization language : option string)
    (nsr : option Z) (source_ctx_recon : option bool) : M pval :=
  (if source_ctx_recon is Some _ then
     warnings_warn
       ("The 'source_ctx_recon' parameter is deprecated. " +:+
        "Use the sourceCtxRecon field in the Trip response instead.")
       DeprecationWarning 2
   else mret ());;
  let params := get_trip_params ctx_recon date travel_request_type product
                  discount travel_class nsr source_ctx_recon in
  let headers := get_trip_headers authorization language in
  data ← HttpTransport.get (_BASE_URL +:+ "/api/v3/trips/trip") (Some params) headers;
  lift (validate Trip data).

(** The query parameters of [get_booked_trip]. *)
Definition get_booked_trip_params (ctx_recon : string)
    (booking_number original_trip_request_id : Z)
    (accessibility_equipment1 accessibility_equipment2 : option string) : pdict :=
  let params : pdict :=
    <["originalTripRequestId" := PInt original_trip_request_id]>
      (<["bookingNumber" := PInt booking_number]>
         {[ "ctxRecon" := PStr ctx_recon ]}) in
  let params := _set params "accessibilityEquipment1"
                  (of_opt PStr accessibility_equipment1) in
  let params := _set params "accessibilityEquipment2"
                  (of_opt PStr accessibility_equipment2) in
  params.

(** The headers of [get_booked_trip]. *)
Definition get_booked_trip_headers (authorization : string)
    (language : option string) : hdict :=
  let headers : hdict := {[ "Authorization" := authorization ]} in
  let headers :=
    match language with Some l => <["lang" := l]> headers | None => headers end in
  headers.

(** [get_booked_trip] *)
Definition get_booked_trip (ctx_recon : string)
    (booking_number original_trip_request_id : Z) (authorization : string)
    (accessibility_equipment1 accessibility_equipment2 language : option string)
    : M pval :=
  let params := get_booked_trip_params ctx_recon booking_number
                  original_trip_request_id accessibility_equipment1
                  accessibility_equipment2 in
  let headers := get_booked_trip_headers authorization language in
  data ← HttpTransport.get (_BASE_URL +:+ "/api/v3/trips/booked-trip")
           (Some params) (Some headers);
  lift (validate Trip data).

(** The query parameters of [get_price]; [is_joint_journey], [adults]
    and [children] are [False], 1 and 0 when not given. *)
Definition get_price_params (from_station to_station : option string)
    (travel_class : option TravelClass) (travel_type : option string)
    (is_joint_journey : option bool) (adults children : option Z)
    (route_id : option string)
    (planned_departure_time planned_arrival_time : option datetime) : pdict :=
  let is_joint_journey := default false is_joint_journey in
  let adults := default 1%Z adults in
  let children := default 0%Z children in
  let params : pdict :=
    <["children" := PInt children]>
      (<["adults" := PInt adults]>
         {[ "isJointJourney" := PBool is_joint_journey ]}) in
  let params := _set params "fromStation" (of_opt PStr from_station) in
  let params := _set params "toStation" (of_opt PStr to_station) in
  let params := _set params "travelClass"
                  (if_truthy travel_class (λ c, PStr (value c))) in
  let params := _set params "travelType" (of_opt PStr travel_type) in
  let params := _set params "routeId" (of_opt PStr route_id) in
  let params := _set params "plannedDepartureTime"
                  (if_truthy planned_departure_time (λ t, PStr (isoformat t))) in
  let params := _set params "plannedArrivalTime"
                  (if_truthy planned_arrival_time (λ t, PStr (isoformat t))) in
  params.

(** [get_price] *)
Definition get_price (from_station to_station : option string)
    (travel_class : option TravelClass) (travel_type : option string)
    (is_joint_journey : option bool) (adults children : option Z)
    (route_id : option string)
    (planned_departure_time planned_arrival_time : option datetime) : M pval :=
  let params := get_price_params from_station to_station travel_class travel_type
                  is_joint_journey adults children route_id
                  planned_departure_time planned_arrival_time in
  data ← HttpTransport.get (_BASE_URL +:+ "/api/v3/price") (Some params) None;
  lift (response ← validate RepresentationResponsePricesResponseV3 data;
        getattr response "payload").

(** The query parameters of [get_price_v2]. *)
Definition get_price_v2_params (from_station to_station : option string)
    (travel_class travel_type : option string)
    (is_joint_journey : option bool) (adults children : option Z)
    (route_id : option string)
    (planned_from_time planned_arrival_time : option datetime) : pdict :=
  let is_joint_journey := default false is_joint_journey in
  let adults := default 1%Z adults in
  let children := default 0%Z children in
  let params : pdict :=
    <["children" := PInt children]>
      (<["adults" := PInt adults]>
         {[ "isJointJourney" := PBool is_joint_journey ]}) in
  let params := _set params "fromStation" (of_opt PStr from_station) in
  let params := _set params "toStation" (of_opt PStr to_station) in
  let params := _set params "travelClass" (of_opt PStr travel_class) in
  let params := _set params "travelType" (of_opt PStr travel_type) in
  let params := _set params "routeId" (of_opt PStr route_id) in
  let params := _set params "plannedFromTime"
                  (if_truthy planned_from_time (λ t, PStr (isoformat t))) in
  let params := _set params "plannedArrivalTime"
                  (if_truthy planned_arrival_time (λ t, PStr (isoformat t))) in
  params.

(** [get_price_v2] *)
Definition get_price_v2 (from_station to_station : option string)
    (travel_class travel_type : option string)
    (is_joint_journey : option bool) (adults children : option Z)
    (route_id : option string)
    (planned_from_time planned_arrival_time : option datetime) : M pval :=
  let params := get_price_v2_params from_station to_station travel_class travel_type
                  is_joint_journey adults children route_id
                  planned_from_time planned_arrival_time in
  data ← HttpTransport.get (_BASE_URL +:+ "/api/v2/price") (Some params) None;
  lift (response ← validate RepresentationResponsePrice data;
        getattr response "payload").

(** The query parameters of [get_stations]; [limit] is 10 when not
    given. *)
Definition get_stations_params (query : option string)
    (country_codes : option (list string)) (limit : option Z) : pdict :=
  let limit := default 10%Z limit in
  let params : pdict := {[ "limit" := PInt limit ]} in
  let params :=
    match query with Some q => <["q" := PStr q]> params | None => params end in
  let params :=
    match country_codes with
    | Some cs => <["countryCodes" := PStr (join "," cs)]> params
    | None => params
    end in
  params.

(** [get_stations] (deprecated) *)
Definition get_stations (query : option string)
    (country_codes : option (list string)) (limit : option Z) : M pval :=
  warnings_warn (_STATIONS_DEPRECATION "get_stations()") DeprecationWarning 2;;
  let params := get_stations_params query country_codes limit in
  data ← HttpTransport.get (_BASE_URL +:+ "/api/v2/stations") (Some params) None;
  lift (response ← validate StationResponse data; getattr response "payload").

(** The query parameters of [get_nearest_stations]; [limit] is 2 when
    not given. *)
Definition get_nearest_stations_params (lat lng : pyfloat) (limit : option Z)
    : pdict :=
  let limit := default 2%Z limit in
  <["limit" := PInt limit]> (<["lng" := PFloat lng]> {[ "lat" := PFloat lat ]}).

(** [get_nearest_stations] (deprecated) *)
Definition get_nearest_stations (lat lng : pyfloat) (limit : option Z) : M pval :=
  warnings_warn (_STATIONS_DEPRECATION "get_nearest_stations()")
    DeprecationWarning 2;;
  let params := get_nearest_stations_params lat lng limit in
  data ← HttpTransport.get (_BASE_URL +:+ "/api/v2/stations/nearest")
           (Some params) None;
  lift (response ← validate StationResponse data; getattr response "payload").

(** The query parameters of [get_calamities]. *)
Definition get_calamities_params (language : option string) : pdict :=
  let params : pdict := ∅ in
  let params := _set params "lang" (of_opt PStr language) in
  params.

(** [get_calamities] (deprecated) *)
Definition get_calamities (language : option string) : M pval :=
  warnings_warn
    (_DISRUPTIONS_DEPRECATION "get_calamities()"
       "client.disruptions.list(disruption_type=DisruptionType.calamity)")
    DeprecationWarning 2;;
  let params := get_calamities_params language in
  data ← HttpTransport.get (_BASE_URL +:+ "/api/v1/calamities") (Some params) None;
  lift (validate CalamitiesResponse data).

(** The query parameters of [list_disruptions]; [is_active] is [False]
    when not given. *)
Definition list_disruptions_params (disruption_type : option (list string))
    (is_active : option bool) : pdict :=
  let is_active := default false is_active in
  let params : pdict := {[ "isActive" := PBool is_active ]} in
  let params :=
    match disruption_type with
    | Some ts => <["type" := PStrs ts]> params
    | None => params
    end in
  params.

(** The headers of [list_disruptions]. *)
Definition list_disruptions_headers (language : option string) : option hdict :=
  let headers : option hdict := None in
  match language with
  | Some l => Some {[ "Accept-Language" := l ]}
  | None => headers
  end.

(** [list_disruptions] (deprecated) *)
Definition list_disruptions (disruption_type : option (list string))
    (is_active : option bool) (language : option string) : M pval :=
  warnings_warn
    (_DISRUPTIONS_DEPRECATION "list_disruptions()" "client.disruptions.list()")
    DeprecationWarning 2;;
  let params := list_disruptions_params disruption_type is_active in
  let headers := list_disruptions_headers language in
  HttpTransport.get (_BASE_URL +:+ "/api/v3/disruptions") (Some params) headers.

(** [list_station_disruptions] (deprecated) *)
Definition list_station_disruptions (station_code : string) : M pval :=
  warnings_warn
    (_DISRUPTIONS_DEPRECATION "list_station_disruptions()"
       "client.disruptions.list_for_station()")
    DeprecationWarning 2;;
  HttpTransport.get (_BASE_URL +:+ "/api/v3/disruptions/station/" +:+ station_code)
    None None.

(** [get_disruption] (deprecated) *)
Definition get_disruption (disruption_type disruption_id : string) : M pval :=
  warnings_warn
    (_DISRUPTIONS_DEPRECATION "get_disruption()" "client.disruptions.get()")
    DeprecationWarning 2;;
  HttpTransport.get
    (_BASE_URL +:+ "/api/v3/disruptions/" +:+ disruption_type +:+ "/" +:+ disruption_id)
    None None.

End travel.
End TravelAPI.

(** ** src/py_ns/client.py *)

(** The arguments the interpreter passes to [__exit__]: three [None]s
    on a normal exit, the exception's type, value and traceback
    otherwise. *)
Inductive exit_arg :=
| exit_None
| exit_type (e : exn)
| exit_value (e : exn)
| exit_traceback (e : exn).

(** [with manager as x: body]. The exit method runs whether the body
    returns or raises; a raised exception is re-raised unless the exit
    method returns a true value, in which case the statement completes
    without a value ([None] below). *)
Definition with_ {T A} (__enter__ : M T) (__exit__ : list exit_arg → M pval)
    (body : T → M A) : M (option A) :=
  λ w,
    match __enter__ w with
    | (Raised e, w1) => (Raised e, w1)
    | (Returned x, w1) =>
        match body x w1 with
        | (Returned a, w2) =>
            match __exit__ [exit_None; exit_None; exit_None] w2 with
            | (Returned _, w3) => (Returned (Some a), w3)
            | (Raised e', w3) => (Raised e', w3)
            end
        | (Raised e, w2) =>
            match __exit__ [exit_type e; exit_value e; exit_traceback e] w2 with
            | (Returned suppress, w3) =>
                if truth suppress then (Returned None, w3) else (Raised e, w3)
            | (Raised e', w3) => (Raised e', w3)
            end
        end
    end.

Module NSClient.
Section client.
Context `{External}.

(** [NSClient.__init__]: one transport, shared by the three endpoint
    modules. *)
Definition __init__ (api_key : string) (timeout : option pyfloat) : world :=
  let timeout := default HttpTransport.default_timeout timeout in
  HttpTransport.__init__ api_key (Some timeout).

(** [close]: close the underlying HTTP connection pool. *)
Definition close : M unit := HttpTransport.close.

(** [__enter__] *)
Definition __enter__ : M unit := mret ().

(** [__exit__(self, *args)] *)
Definition __exit__ {T} (args : list T) : M pval :=
  close;; mret PNone.

End client.
End NSClient.

(** ** The endpoint surface *)

(** One call of an endpoint operation through the client, with its
    arguments: positional ones as they are, keyword ones [None] when the
    caller left them out. *)
Inductive operation :=
| disruptions_list (is_active : option bool) (disruption_type : option Enum)
    (language : option string)
| disruptions_get (disruption_type : Enum) (disruption_id : string)
    (language : option string)
| disruptions_list_for_station (station_code : string) (language : option string)
| disruptions_list_personal (push_id : string)
| disruptions_sync_saved_trips (api_key : string) (saved_trip : pval)
| stations_list_v2 (query country_codes : option string)
    (include_non_plannable : option bool) (limit : option Z)
| stations_list_nearest_v2 (lat lng : pyfloat) (limit : option Z)
    (include_non_plannable : option bool)
| stations_list_v3 (query country_codes : option string)
    (include_non_plannable : option bool) (limit : option Z)
| stations_list_nearest_v3 (lat lng : pyfloat) (limit : option Z)
    (include_non_plannable : option bool)
| stations_get (uic_code : string) (uic_cd_code : option string)
| travel_get_departures (station : string) (uic_code : option string)
    (date_time : option datetime) (max_journeys : option Z) (language : option string)
| travel_get_arrivals (station : string) (uic_code : option string)
    (date_time : option datetime) (max_journeys : option Z) (language : option string)
| travel_get_journey (train : option Z) (journey_id : option string)
    (date_time : option datetime)
    (departure_uic_code transfer_uic_code arrival_uic_code : option string)
    (omit_crowd_forecast : option bool)
| travel_plan_trip (from_station to_station : option string)
    (kw : TravelAPI.plan_trip_kwargs)
| travel_get_trip (ctx_recon : string) (date : option datetime)
    (travel_request_type product discount : option string)
    (travel_class : option Z) (authorization language : option string)
    (nsr : option Z) (source_ctx_recon : option bool)
| travel_get_booked_trip (ctx_recon : string)
    (booking_number original_trip_request_id : Z) (authorization : string)
    (accessibility_equipment1 accessibility_equipment2 language : option string)
| travel_get_price (from_station to_station : option string)
    (travel_class : option Enum) (travel_type : option string)
    (is_joint_journey : option bool) (adults children : option Z)
    (route_id : option string)
    (planned_departure_time planned_arrival_time : option datetime)
| travel_get_price_v2 (from_station to_station : option string)
    (travel_class travel_type : option string)
    (is_joint_journey : option bool) (adults children : option Z)
    (route_id : option string)
    (planned_from_time planned_arrival_time : option datetime)
| travel_get_stations (query : option string)
    (country_codes : option (list string)) (limit : option Z)
| travel_get_nearest_stations (lat lng : pyfloat) (limit : option Z)
| travel_get_calamities (language : option string)
| travel_list_disruptions (disruption_type : option (list string))
    (is_active : option bool) (language : option string)
| travel_list_station_disruptions (station_code : string)
| travel_get_disruption (disruption_type disruption_id : string).

Section surface.
Context `{External}.

(** Running an operation. *)
Definition perform (op : operation) : M pval :=
  match op with
  | disruptions_list a t l => DisruptionsAPI.list a t l
  | disruptions_get t i l => DisruptionsAPI.get t i l
  | disruptions_list_for_station s l => DisruptionsAPI.list_for_station s l
  | disruptions_list_personal p => DisruptionsAPI.list_personal p
  | disruptions_sync_saved_trips k t => DisruptionsAPI.sync_saved_trips k t
  | stations_list_v2 q c i l => StationsAPI.list_v2 q c i l
  | stations_list_nearest_v2 la ln l i => StationsAPI.list_nearest_v2 la ln l i
  | stations_list_v3 q c i l => StationsAPI.list_v3 q c i l
  | stations_list_nearest_v3 la ln l i => StationsAPI.list_nearest_v3 la ln l i
  | stations_get u c => StationsAPI.get u c
  | travel_get_departures s u d m l => TravelAPI.get_departures s u d m l
  | travel_get_arrivals s u d m l => TravelAPI.get_arrivals s u d m l
  | travel_get_journey t j d du tu au o => TravelAPI.get_journey t j d du tu au o
  | travel_plan_trip f t kw => TravelAPI.plan_trip f t kw
  | travel_get_trip c d r p di tc a l n s => TravelAPI.get_trip c d r p di tc a l n s
  | travel_get_booked_trip c b o a e1 e2 l => TravelAPI.get_booked_trip c b o a e1 e2 l
  | travel_get_price f t c ty j a ch r pd pa =>
      TravelAPI.get_price f t c ty j a ch r pd pa
  | travel_get_price_v2 f t c ty j a ch r pf pa =>
      TravelAPI.get_price_v2 f t c ty j a ch r pf pa
  | travel_get_stations q c l => TravelAPI.get_stations q c l
  | travel_get_nearest_stations la ln l => TravelAPI.get_nearest_stations la ln l
  | travel_get_calamities l => TravelAPI.get_calamities l
  | travel_list_disruptions t a l => TravelAPI.list_disruptions t a l
  | travel_list_station_disruptions s => TravelAPI.list_station_disruptions s
  | travel_get_disruption t i => TravelAPI.get_disruption t i
  end.

(** The request an operation hands to the transport. *)
Definition request_of (op : operation) : request :=
  match op with
  | disruptions_list a t l =>
      Request GET (DisruptionsAPI._BASE_URL +:+ "/v3")
        (Some (DisruptionsAPI.list_params a t)) None (DisruptionsAPI.list_headers l)
  | disruptions_get t i l =>
      Request GET (DisruptionsAPI._BASE_URL +:+ "/v3/" +:+ value t +:+ "/" +:+ i)
        None None (DisruptionsAPI.get_headers l)
  | disruptions_list_for_station s l =>
      Request GET (DisruptionsAPI._BASE_URL +:+ "/v3/station/" +:+ s)
        None None (DisruptionsAPI.list_for_station_headers l)
  | disruptions_list_personal p =>
      Request GET (DisruptionsAPI._BASE_URL +:+ "/v1/personal-disruptions")
        None None (Some {[ "x-ns-push-id" := p ]})
  | disruptions_sync_saved_trips k t =>
      Request POST
        (DisruptionsAPI._BASE_URL +:+ "/v1/personal-disruptions/sync/saved-trips")
        None (Some (model_dump t)) (Some {[ "x-api-key" := k ]})
  | stations_list_v2 q c i l =>
      Request GET (StationsAPI._BASE_URL +:+ "/v2")
        (Some (StationsAPI.list_v2_params q c i l)) None None
  | stations_list_nearest_v2 la ln l i =>
      Request GET (StationsAPI._BASE_URL +:+ "/v2/nearest")
        (Some (StationsAPI.list_nearest_v2_params la ln l i)) None None
  | stations_list_v3 q c i l =>
      Request GET (StationsAPI._BASE_URL +:+ "/v3")
        (Some (StationsAPI.list_v3_params q c i l)) None None
  | stations_list_nearest_v3 la ln l i =>
      Request GET (StationsAPI._BASE_URL +:+ "/v3/nearest")
        (Some (StationsAPI.list_nearest_v3_params la ln l i)) None None
  | stations_get u c =>
      Request GET (StationsAPI._BASE_URL +:+ "/v1/station")
        (Some (StationsAPI.get_params u c)) None None
  | travel_get_departures s u d m l =>
      Request GET (TravelAPI._BASE_URL +:+ "/api/v2/departures")
        (Some (TravelAPI.get_departures_params s u d m l)) None None
  | travel_get_arrivals s u d m l =>
      Request GET (TravelAPI._BASE_URL +:+ "/api/v2/arrivals")
        (Some (TravelAPI.get_arrivals_params s u d m l)) None None
  | travel_get_journey t j d du tu au o =>
      Request GET (TravelAPI._BASE_URL +:+ "/api/v2/journey")
        (Some (TravelAPI.get_journey_params t j d du tu au o)) None None
  | travel_plan_trip f t kw =>
      Request GET (TravelAPI._BASE_URL +:+ "/api/v3/trips")
        (Some (TravelAPI.plan_trip_params f t kw)) None
        (TravelAPI.plan_trip_headers kw)
  | travel_get_trip c d r p di tc a l n s =>
      Request GET (TravelAPI._BASE_URL +:+ "/api/v3/trips/trip")
        (Some (TravelAPI.get_trip_params c d r p di tc n s)) None
        (TravelAPI.get_trip_headers a l)
  | travel_get_booked_trip c b o a e1 e2 l =>
      Request GET (TravelAPI._BASE_URL +:+ "/api/v3/trips/booked-trip")
        (Some (TravelAPI.get_booked_trip_params c b o e1 e2)) None
        (Some (TravelAPI.get_booked_trip_headers a l))
  | travel_get_price f t c ty j a ch r pd pa =>
      Request GET (TravelAPI._BASE_URL +:+ "/api/v3/price")
        (Some (TravelAPI.get_price_params f t c ty j a ch r pd pa)) None None
  | travel_get_price_v2 f t c ty j a ch r pf pa =>
      Request GET (TravelAPI._BASE_URL +:+ "/api/v2/price")
        (Some (TravelAPI.get_price_v2_params f t c ty j a ch r pf pa)) None None
  | travel_get_stations q c l =>
      Request GET (TravelAPI._BASE_URL +:+ "/api/v2/stations")
        (Some (TravelAPI.get_stations_params q c l)) None None
  | travel_get_nearest_stations la ln l =>
      Request GET (TravelAPI._BASE_URL +:+ "/api/v2/stations/nearest")
        (Some (TravelAPI.get_nearest_stations_params la ln l)) None None
  | travel_get_calamities l =>
      Request GET (TravelAPI._BASE_URL +:+ "/api/v1/calamities")
        (Some (TravelAPI.get_calamities_params l)) None None
  | travel_list_disruptions t a l =>
      Request GET (TravelAPI._BASE_URL +:+ "/api/v3/disruptions")
        (Some (TravelAPI.list_disruptions_params t a)) None
        (TravelAPI.list_disruptions_headers l)
  | travel_list_station_disruptions s =>
      Request GET (TravelAPI._BASE_URL +:+ "/api/v3/disruptions/station/" +:+ s)
        None None None
  | travel_get_disruption t i =>
      Request GET (TravelAPI._BASE_URL +:+ "/api/v3/disruptions/" +:+ t +:+ "/" +:+ i)
        None None None
  end.

(** The query parameters and the headers of that request; an
    operation that passes none has none. *)
Definition query (op : operation) : pdict := default ∅ (req_params (request_of op)).
Definition headers (op : operation) : hdict := default ∅ (req_headers (request_of op)).

(** The requests a computation sends, started in world [w]. *)
Definition sent_by {A} (m : M A) (w : world) : list request :=
  drop (length (sent w)) (sent (m w).2).

(** The warnings a computation emits, started in world [w]. *)
Definition emitted_by {A} (m : M A) (w : world) : list warning :=
  drop (length (emitted w)) (emitted (m w).2).

End surface.

(** *** Which argument goes where *)

Section tables.
Import TravelAPI.

Definition PIso (t : datetime) : pval := PStr (isoformat t).
Definition PValue (e : Enum) : pval := PStr (value e).

(** For every parameter of an operation that is declared with default
    [None] and bound for the query string: its query key and the value
    the caller gave, in wire form ([PNone] when left out). *)
Definition optional_query_args (op : operation) : list (string * pval) :=
  match op with
  | disruptions_list a t _ =>
      [("isActive", of_opt PBool a); ("type", of_opt PValue t)]
  | stations_list_v2 q c i l | stations_list_v3 q c i l =>
      [("q", of_opt PStr q); ("countryCodes", of_opt PStr c);
       ("includeNonPlannableStations", of_opt PBool i); ("limit", of_opt PInt l)]
  | stations_list_nearest_v2 _ _ l i | stations_list_nearest_v3 _ _ l i =>
      [("limit", of_opt PInt l); ("includeNonPlannableStations", of_opt PBool i)]
  | stations_get _ c => [("uicCdCode", of_opt PStr c)]
  | travel_get_departures _ u d _ l | travel_get_arrivals _ u d _ l =>
      [("uicCode", of_opt PStr u); ("dateTime", of_opt PIso d);
       ("lang", of_opt PStr l)]
  | travel_get_journey t j d du tu au _ =>
      [("train", of_opt PInt t); ("id", of_opt PStr j); ("dateTime", of_opt PIso d);
       ("departureUicCode", of_opt PStr du); ("transferUicCode", of_opt PStr tu);
       ("arrivalUicCode", of_opt PStr au)]
  | travel_plan_trip f t kw =>
      [("fromStation", of_opt PStr f);
       ("toStation", of_opt PStr t);
       ("originUicCode", of_opt PStr (origin_uic_code kw));
       ("originLat", of_opt PFloat (origin_lat kw));
       ("originLng", of_opt PFloat (origin_lng kw));
       ("originName", of_opt PStr (origin_name kw));
       ("destinationUicCode", of_opt PStr (destination_uic_code kw));
       ("destinationLat", of_opt PFloat (destination_lat kw));
       ("destinationLng", of_opt PFloat (destination_lng kw));
       ("destinationName", of_opt PStr (destination_name kw));
       ("viaStation", of_opt PStr (via_station kw));
       ("viaUicCode", of_opt PStr (via_uic_code kw));
       ("viaLat", of_opt PFloat (via_lat kw));
       ("viaLng", of_opt PFloat (via_lng kw));
       ("viaWaitTime", of_opt PInt (via_wait_time kw));
       ("dateTime", of_opt PIso (date_time kw));
       ("lang", of_opt PStr (language kw));
       ("context", of_opt PStr (context kw));
       ("addChangeTime", of_opt PInt (add_change_time kw));
       ("passing", of_opt PBool (passing kw));
       ("localTrainsOnly", of_opt PBool (local_trains_only kw));
       ("excludeHighSpeedTrains", of_opt PBool (exclude_high_speed_trains kw));
       ("excludeTrainsWithReservationRequired",
        of_opt PBool (exclude_trains_with_reservation_required kw));
       ("travelRequestType", of_opt PStr (travel_request_type kw));
       ("filterTransportMode", of_opt PStr (filter_transport_mode kw));
       ("disabledTransportModalities", of_opt PStrs (disabled_transport_modalities kw));
       ("originWalk", of_opt PBool (origin_walk kw));
       ("originBike", of_opt PBool (origin_bike kw));
       ("originCar", of_opt PBool (origin_car kw));
       ("destinationWalk", of_opt PBool (destination_walk kw));
       ("destinationBike", of_opt PBool (destination_bike kw));
       ("destinationCar", of_opt PBool (destination_car kw));
       ("firstMileModality", of_opt PStr (first_mile_modality kw));
       ("lastMileModality", of_opt PStr (last_mile_modality kw));
       ("entireTripModality", of_opt PStr (entire_trip_modality kw));
       ("travelAssistance", of_opt PBool (travel_assistance kw));
       ("searchForAccessibleTrip", of_opt PBool (search_for_accessible_trip kw));
       ("accessibilityEquipment1", of_opt PStr (accessibility_equipment1 kw));
       ("accessibilityEquipment2", of_opt PStr (accessibility_equipment2 kw));
       ("product", of_opt PStr (product kw));
       ("discount", of_opt PStr (discount kw));
       ("travelClass", of_opt PInt (travel_class kw));
       ("nsr", of_opt PInt (nsr kw));
       ("departure", of_opt PBool (departure kw));
       ("shorterChange", of_opt PBool (shorter_change kw));
       ("minimalChangeTime", of_opt PInt (minimal_change_time kw));
       ("originAccessible", of_opt PBool (origin_accessible kw));
       ("travelAssistanceTransferTime",
        of_opt PInt (travel_assistance_transfer_time kw))]
  | travel_get_trip _ d _ p di tc _ _ n s =>
      [("date", of_opt PIso d); ("product", of_opt PStr p);
       ("discount", of_opt PStr di); ("travelClass", of_opt PInt tc);
       ("nsr", of_opt PInt n); ("sourceCtxRecon", of_opt PBool s)]
  | travel_get_booked_trip _ _ _ _ e1 e2 _ =>
      [("accessibilityEquipment1", of_opt PStr e1);
       ("accessibilityEquipment2", of_opt PStr e2)]
  | travel_get_price f t c ty _ _ _ r pd pa =>
      [("fromStation", of_opt PStr f); ("toStation", of_opt PStr t);
       ("travelClass", of_opt PValue c); ("travelType", of_opt PStr ty);
       ("routeId", of_opt PStr r); ("plannedDepartureTime", of_opt PIso pd);
       ("plannedArrivalTime", of_opt PIso pa)]
  | travel_get_price_v2 f t c ty _ _ _ r pf pa =>
      [("fromStation", of_opt PStr f); ("toStation", of_opt PStr t);
       ("travelClass", of_opt PStr c); ("travelType", of_opt PStr ty);
       ("routeId", of_opt PStr r); ("plannedFromTime", of_opt PIso pf);
       ("plannedArrivalTime", of_opt PIso pa)]
  | travel_get_stations q c _ =>
      [("q", of_opt PStr q); ("countryCodes", of_opt (λ cs, PStr (join "," cs)) c)]
  | travel_get_calamities l => [("lang", of_opt PStr l)]
  | travel_list_disruptions t _ _ => [("type", of_opt PStrs t)]
  | _ => []
  end.

(** For every query parameter declared with a default other than
    [None]: its key, what the caller gave, and the default. *)
Definition defaulted_query_args (op : operation)
    : list (string * option pval * pval) :=
  match op with
  | travel_get_departures _ _ _ m _ | travel_get_arrivals _ _ _ m _ =>
      [("maxJourneys", PInt <$> m, PInt 40)]
  | travel_get_journey _ _ _ _ _ _ o =>
      [("omitCrowdForecast", PBool <$> o, PBool false)]
  | travel_get_trip _ _ r _ _ _ _ _ _ _ =>
      [("travelRequestType", PStr <$> r, PStr "DEFAULT")]
  | travel_get_price _ _ _ _ j a ch _ _ _
  | travel_get_price_v2 _ _ _ _ j a ch _ _ _ =>
      [("isJointJourney", PBool <$> j, PBool false);
       ("adults", PInt <$> a, PInt 1);
       ("children", PInt <$> ch, PInt 0)]
  | travel_get_stations _ _ l => [("limit", PInt <$> l, PInt 10)]
  | travel_get_nearest_stations _ _ l => [("limit", PInt <$> l, PInt 2)]
  | travel_list_disruptions _ a _ => [("isActive", PBool <$> a, PBool false)]
  | _ => []
  end.

(** The parameters that travel as a header. *)
Inductive header_param :=
| language_param
| push_id_param
| authorization_param
| api_key_param.

(** For every operation, the header-bearing parameters it sends as a
    header, with what the caller gave. *)
Definition header_args (op : operation) : list (header_param * option string) :=
  match op with
  | disruptions_list _ _ l | disruptions_get _ _ l
  | disruptions_list_for_station _ l | travel_list_disruptions _ _ l =>
      [(language_param, l)]
  | disruptions_list_personal p => [(push_id_param, Some p)]
  | disruptions_sync_saved_trips k _ => [(api_key_param, Some k)]
  | travel_plan_trip _ _ kw => [(authorization_param, authorization kw)]
  | travel_get_trip _ _ _ _ _ _ a l _ _ =>
      [(authorization_param, a); (language_param, l)]
  | travel_get_booked_trip _ _ _ a _ _ l =>
      [(authorization_param, Some a); (language_param, l)]
  | _ => []
  end.

(** The header name a parameter is sent under by an operation: fixed
    for three of them, two names for the language. *)
Definition header_name (op : operation) (p : header_param) : string :=
  match p with
  | push_id_param => "x-ns-push-id"
  | api_key_param => "x-api-key"
  | authorization_param => "Authorization"
  | language_param =>
      match op with
      | travel_get_trip _ _ _ _ _ _ _ _ _ _
      | travel_get_booked_trip _ _ _ _ _ _ _ => "lang"
      | _ => "Accept-Language"
      end
  end.

(** The operations that take a language and put it in the query
    string instead. *)
Definition language_in_query (op : operation) : bool :=
  match op with
  | travel_get_departures _ _ _ _ _ | travel_get_arrivals _ _ _ _ _
  | travel_plan_trip _ _ _ | travel_get_calamities _ => true
  | _ => false
  end.

End tables.

(** *** An operation taken apart *)

Section anatomy.
Context `{External}.
Import TravelAPI.

(** For every deprecated parameter of an operation: the parameter, its
    query key, the value the caller gave ([PNone] when left out) and the
    text of its deprecation warning. *)
Definition deprecated_args (op : operation) : list (string * string * pval * string) :=
  match op with
  | travel_plan_trip _ _ kw =>
      [("departure", "departure", of_opt PBool (departure kw),
        "The 'departure' parameter is deprecated. Use 'search_for_arrival' instead.");
       ("shorter_change", "shorterChange", of_opt PBool (shorter_change kw),
        "The 'shorter_change' parameter is deprecated and has no effect. " +:+
        "NS removed this functionality.");
       ("minimal_change_time", "minimalChangeTime", of_opt PInt (minimal_change_time kw),
        "The 'minimal_change_time' parameter is deprecated. " +:+
        "Use 'add_change_time' instead.");
       ("origin_accessible", "originAccessible", of_opt PBool (origin_accessible kw),
        "The 'origin_accessible' parameter is deprecated. " +:+
        "Use 'travel_assistance' instead.");
       ("travel_assistance_transfer_time", "travelAssistanceTransferTime",
        of_opt PInt (travel_assistance_transfer_time kw),
        "The 'travel_assistance_transfer_time' parameter is deprecated. " +:+
        "Use 'add_change_time' instead.")]
  | travel_get_trip _ _ _ _ _ _ _ _ _ s =>
      [("source_ctx_recon", "sourceCtxRecon", of_opt PBool s,
        "The 'source_ctx_recon' parameter is deprecated. " +:+
        "Use the sourceCtxRecon field in the Trip response instead.")]
  | _ => []
  end.

(** The deprecated parameters the caller did pass. *)
Definition supplied_deprecated_args (op : operation)
    : list (string * string * pval * string) :=
  filter (λ a, is_not_None a.1.2) (deprecated_args op).

(** For a deprecated method: the text of its deprecation warning. *)
Definition deprecated_method (op : operation) : option string :=
  match op with
  | travel_get_stations _ _ _ => Some (_STATIONS_DEPRECATION "get_stations()")
  | travel_get_nearest_stations _ _ _ =>
      Some (_STATIONS_DEPRECATION "get_nearest_stations()")
  | travel_get_calamities _ =>
      Some (_DISRUPTIONS_DEPRECATION "get_calamities()"
              "client.disruptions.list(disruption_type=DisruptionType.calamity)")
  | travel_list_disruptions _ _ _ =>
      Some (_DISRUPTIONS_DEPRECATION "list_disruptions()" "client.disruptions.list()")
  | travel_list_station_disruptions _ =>
      Some (_DISRUPTIONS_DEPRECATION "list_station_disruptions()"
              "client.disruptions.list_for_station()")
  | travel_get_disruption _ _ =>
      Some (_DISRUPTIONS_DEPRECATION "get_disruption()" "client.disruptions.get()")
  | _ => None
  end.

(** The warnings an operation owes: one per deprecated parameter passed,
    one for a deprecated method. *)
Definition deprecation_notices (op : operation) : list warning :=
  ((λ a, Warning a.2 DeprecationWarning 2) <$> supplied_deprecated_args op) ++
  match deprecated_method op with
  | Some text => [Warning text DeprecationWarning 2]
  | None => []
  end.

(** Handing warnings to the sink. *)
Definition emit (ws : list warning) : M unit :=
  λ w, (Returned (), log_warnings ws w).

(** One round trip of the transport, [get] or [post] by the request's
    method. *)
Definition transport_call (req : request) : M pval :=
  response ← HttpTransport.client_request req;
  lift (HttpTransport._handle_response response).

(** What an operation makes of the data the transport returns. *)
Definition post_process (op : operation) (data : pval) : result pval :=
  match op with
  | disruptions_list _ _ _ | disruptions_list_for_station _ _ =>
      DisruptionsAPI.parse_items data
  | disruptions_get _ _ _ => DisruptionsAPI._parse_item data
  | disruptions_list_personal _ =>
      items ← iter data;
      PList <$> comprehension (validate PersonalDisruption) items
  | disruptions_sync_saved_trips _ _ => Returned PNone
  | stations_list_v2 _ _ _ _ | stations_list_nearest_v2 _ _ _ _ =>
      response ← validate StationsV2Response data; getattr response "payload"
  | stations_list_v3 _ _ _ _ | stations_list_nearest_v3 _ _ _ _ =>
      response ← validate StationsV3Response data; getattr response "payload"
  | stations_get _ _ =>
      response ← validate StationV3Response data; getattr response "payload"
  | travel_get_departures _ _ _ _ _ =>
      response ← validate RepresentationResponseDeparturesPayload data;
      payload ← getattr response "payload";
      getattr payload "departures"
  | travel_get_arrivals _ _ _ _ _ =>
      response ← validate RepresentationResponseArrivalsPayload data;
      payload ← getattr response "payload";
      getattr payload "arrivals"
  | travel_get_journey _ _ _ _ _ _ _ =>
      response ← validate RepresentationResponseJourney data;
      getattr response "payload"
  | travel_plan_trip _ _ _ => validate TravelAdvice data
  | travel_get_trip _ _ _ _ _ _ _ _ _ _ | travel_get_booked_trip _ _ _ _ _ _ _ =>
      validate Trip data
  | travel_get_price _ _ _ _ _ _ _ _ _ _ =>
      response ← validate RepresentationResponsePricesResponseV3 data;
      getattr response "payload"
  | travel_get_price_v2 _ _ _ _ _ _ _ _ _ _ =>
      response ← validate RepresentationResponsePrice data;
      getattr response "payload"
  | travel_get_stations _ _ _ | travel_get_nearest_stations _ _ _ =>
      response ← validate StationResponse data; getattr response "payload"
  | travel_get_calamities _ => validate CalamitiesResponse data
  | travel_list_disruptions _ _ _ | travel_list_station_disruptions _
  | travel_get_disruption _ _ => Returned data
  end.

(** The operation with its deprecation left out: the request, and what
    is made of the answer. *)
Definition plain_call (op : operation) : M pval :=
  data ← transport_call (request_of op);
  lift (post_process op data).

End anatomy.

(** Straight-line runs of [_set]: the pairs offered, first to last. *)
Definition set_all (params : pdict) (offers : list (string * pval)) : pdict :=
  foldl (λ params offer, TravelAPI._set params offer.1 offer.2) params offers.

(** What [key] holds after a run of offers, given what it held before:
    an offer under another key or of [None] changes nothing. *)
Fixpoint lookup_after (before : option pval) (key : string)
    (offers : list (string * pval)) : option pval :=
  match offers with
  | [] => before
  | (k, v) :: rest =>
      lookup_after
        (if String.eqb key k then from_option Some before (stored v) else before)
        key rest
  end.

(** *** A server and models to run examples against *)

(** A server that answers every request with an empty JSON list, and
    models that accept every JSON object. *)
Definition empty_list_response : Response :=
  {| status_code := 200; content := "[]"; text := "[]"; decoded := Some (PList []) |}.

Definition accept_objects (cls : model_class) (data : pval) : option pdict :=
  match data with PDict d => Some d | _ => None end.

Definition dump_attrs (obj : pval) : pdict :=
  match obj with PObj _ attrs => attrs | PDict d => d | _ => ∅ end.

Definition demo_external : External :=
  {| network := λ _ _, empty_list_response;
     model_validate := accept_objects;
     model_dump := dump_attrs |}.

(** A fresh client, as [NSClient(api_key=...)] makes it. *)
Definition fresh_world : world := HttpTransport.__init__ "test-key-abc" None.

(** *** Responses to run examples against *)

(** The double quote character, for JSON text. *)
Definition dq : string := String (Ascii.ascii_of_nat 34) EmptyString.

(** A 400 whose body is the JSON object with [message] set to [X]. *)
Definition bad_request_X : Response :=
  {| status_code := 400;
     content := "{" +:+ dq +:+ "message" +:+ dq +:+ ": " +:+ dq +:+ "X" +:+ dq +:+ "}";
     text := "{" +:+ dq +:+ "message" +:+ dq +:+ ": " +:+ dq +:+ "X" +:+ dq +:+ "}";
     decoded := Some (PDict {[ "message" := PStr "X" ]}) |}.

(** A 500 whose body is the plain text [Y], which is not JSON. *)
Definition server_error_Y : Response :=
  {| status_code := 500; content := "Y"; text := "Y"; decoded := None |}.

(** A 304 with an empty body. *)
Definition not_modified : Response :=
  {| status_code := 304; content := ""; text := ""; decoded := None |}.

(** A 401 with an object body that has no [message]. *)
Definition unauthorized : Response :=
  {| status_code := 401; content := "{}"; text := "{}"; decoded := Some (PDict ∅) |}.

(** A 204 without a body, and a 200 with an empty JSON object. *)
Definition no_content : Response :=
  {| status_code := 204; content := ""; text := ""; decoded := None |}.
Definition ok_empty_object : Response :=
  {| status_code := 200; content := "{}"; text := "{}"; decoded := Some (PDict ∅) |}.

(** *** Calls to run examples against *)

(** The keyword arguments of [plan_trip] with at most
    [search_for_arrival], [add_change_time], [departure] and
    [minimal_change_time] given. *)
Definition plan_trip_with (sfa : option bool) (act : option Z) (dep : option bool)
    (mct : option Z) : TravelAPI.plan_trip_kwargs :=
  {|
     TravelAPI.origin_uic_code := None;
     TravelAPI.origin_lat := None;
     TravelAPI.origin_lng := None;
     TravelAPI.origin_name := None;
     TravelAPI.destination_uic_code := None;
     TravelAPI.destination_lat := None;
     TravelAPI.destination_lng := None;
     TravelAPI.destination_name := None;
     TravelAPI.via_station := None;
     TravelAPI.via_uic_code := None;
     TravelAPI.via_lat := None;
     TravelAPI.via_lng := None;
     TravelAPI.via_wait_time := None;
     TravelAPI.date_time := None;
     TravelAPI.search_for_arrival := sfa;
     TravelAPI.language := None;
     TravelAPI.context := None;
     TravelAPI.add_change_time := act;
     TravelAPI.passing := None;
     TravelAPI.local_trains_only := None;
     TravelAPI.exclude_high_speed_trains := None;
     TravelAPI.exclude_trains_with_reservation_required := None;
     TravelAPI.travel_request_type := None;
     TravelAPI.filter_transport_mode := None;
     TravelAPI.disabled_transport_modalities := None;
     TravelAPI.origin_walk := None;
     TravelAPI.origin_bike := None;
     TravelAPI.origin_car := None;
     TravelAPI.destination_walk := None;
     TravelAPI.destination_bike := None;
     TravelAPI.destination_car := None;
     TravelAPI.first_mile_modality := None;
     TravelAPI.last_mile_modality := None;
     TravelAPI.entire_trip_modality := None;
     TravelAPI.travel_assistance := None;
     TravelAPI.search_for_accessible_trip := None;
     TravelAPI.accessibility_equipment1 := None;
     TravelAPI.accessibility_equipment2 := None;
     TravelAPI.product := None;
     TravelAPI.discount := None;
     TravelAPI.travel_class := None;
     TravelAPI.authorization := None;
     TravelAPI.nsr := None;
     TravelAPI.departure := dep;
     TravelAPI.shorter_change := None;
     TravelAPI.minimal_change_time := mct;
     TravelAPI.origin_accessible := None;
     TravelAPI.travel_assistance_transfer_time := None
  |}.

(** [plan_trip("ASD", "UT", search_for_arrival=False)] *)
Definition trip_arrival_False : operation :=
  travel_plan_trip (Some "ASD") (Some "UT") (plan_trip_with (Some false) None None None).

(** [plan_trip("ASD", "UT", add_change_time=0)] *)
Definition trip_change_time_0 : operation :=
  travel_plan_trip (Some "ASD") (Some "UT") (plan_trip_with None (Some 0%Z) None None).

(** [plan_trip("ASD", "UT", departure=True, minimal_change_time=3)] *)
Definition trip_two_deprecated : operation :=
  travel_plan_trip (Some "ASD") (Some "UT")
    (plan_trip_with None None (Some true) (Some 3%Z)).

(** [plan_trip("", "UT")] *)
Definition trip_from_empty : operation :=
  travel_plan_trip (Some "") (Some "UT") (plan_trip_with None None None None).

(** [get_journey(train=6952)] *)
Definition journey_6952 : operation :=
  travel_get_journey (Some 6952%Z) None None None None None None.

(** [disruptions.list(language="nl")] and
    [get_trip("arnu|test|ctx", language="nl")] *)
Definition disruptions_nl : operation := disruptions_list None None (Some "nl").
Definition trip_nl : operation :=
  travel_get_trip "arnu|test|ctx" None None None None None None (Some "nl") None None.

(** A raw disruption and a raw calamity, as the tests' fixtures tag
    them, and a server that answers with the two in this order. *)
Definition raw_disruption : pdict :=
  <["type" := PStr "DISRUPTION"]> {[ "id" := PStr "dis-123" ]}.
Definition raw_calamity : pdict :=
  <["type" := PStr "CALAMITY"]> {[ "id" := PStr "cal-123" ]}.

(** [plan_trip("ASD", "UT", search_for_arrival=True)] *)
Definition trip_arrival_True : operation :=
  travel_plan_trip (Some "ASD") (Some "UT") (plan_trip_with (Some true) None None None).

(** A server that answers every request with the disruption and the
    calamity, in this order. *)
Definition mixed_response : Response :=
  {| status_code := 200; content := "[...]"; text := "[...]";
     decoded := Some (PList [PDict raw_disruption; PDict raw_calamity]) |}.

Definition mixed_external : External :=
  {| network := λ _ _, mixed_response;
     model_validate := accept_objects;
     model_dump := dump_attrs |}.

(** *** Closed forms of the transport's error path *)

(** What message extraction yields: the [message] entry of an object
    body, and the raw text in every other case. *)
Definition extracted_message (response : Response) : pval :=
  match decoded response with
  | Some (PDict d) => default (PStr (text response)) (d !! "message")
  | _ => PStr (text response)
  end.

(** The error class raised for a status that is not a success. *)
Definition raised_class (status : Z) : api_error :=
  if ((status =? 401) || (status =? 403))%Z then AuthenticationError
  else if (status =? 404)%Z then NotFoundError
  else if (status =? 429)%Z then RateLimitError
  else if (500 <=? status)%Z then ServerError
  else APIError.

(** *** The rest of a request *)

Section request_tables.
Context `{External}.

(** The positional arguments that go into the query as they are: key
    and value. *)
Definition required_query_args (op : operation) : list (string * pval) :=
  match op with
  | stations_list_nearest_v2 lat lng _ _ | stations_list_nearest_v3 lat lng _ _
  | travel_get_nearest_stations lat lng _ =>
      [("lat", PFloat lat); ("lng", PFloat lng)]
  | stations_get u _ => [("uicCode", PStr u)]
  | travel_get_trip c _ _ _ _ _ _ _ _ _ => [("ctxRecon", PStr c)]
  | travel_get_booked_trip c b o _ _ _ _ =>
      [("ctxRecon", PStr c); ("bookingNumber", PInt b);
       ("originalTripRequestId", PInt o)]
  | _ => []
  end.

(** The arguments that are tested for truth before they are sent: the
    station of [get_departures] and [get_arrivals], and
    [search_for_arrival] of [plan_trip]. *)
Definition truth_gated_query_args (op : operation) : list (string * pval) :=
  match op with
  | travel_get_departures s _ _ _ _ | travel_get_arrivals s _ _ _ _ =>
      [("station", PStr s)]
  | travel_plan_trip _ _ kw =>
      [("searchForArrival", PBool (default false (TravelAPI.search_for_arrival kw)))]
  | _ => []
  end.

(** The defaulted parameters with the value that is sent for them. *)
Definition defaulted_query_values (op : operation) : list (string * pval) :=
  (λ a, (a.1.1, default a.2 a.1.2)) <$> defaulted_query_args op.

(** Every argument that can reach the query, with its value. *)
Definition query_args (op : operation) : list (string * pval) :=
  required_query_args op ++ defaulted_query_values op ++
  optional_query_args op ++ truth_gated_query_args op.

(** The header names the endpoint modules use. *)
Definition header_names : list string :=
  ["Accept-Language"; "lang"; "Authorization"; "x-ns-push-id"; "x-api-key"].

(** The three APIs behind the gateway, and the module an operation
    belongs to. *)
Inductive api := disruptions_api | stations_api | travel_api.

Definition api_of (op : operation) : api :=
  match op with
  | disruptions_list _ _ _ | disruptions_get _ _ _
  | disruptions_list_for_station _ _ | disruptions_list_personal _
  | disruptions_sync_saved_trips _ _ => disruptions_api
  | stations_list_v2 _ _ _ _ | stations_list_nearest_v2 _ _ _ _
  | stations_list_v3 _ _ _ _ | stations_list_nearest_v3 _ _ _ _
  | stations_get _ _ => stations_api
  | _ => travel_api
  end.

Definition base_url (a : api) : string :=
  match a with
  | disruptions_api => DisruptionsAPI._BASE_URL
  | stations_api => StationsAPI._BASE_URL
  | travel_api => TravelAPI._BASE_URL
  end.

(** The operations that hand the transport's data on without
    validating it. *)
Definition returns_raw_data (op : operation) : bool :=
  match op with
  | travel_list_disruptions _ _ _ | travel_list_station_disruptions _
  | travel_get_disruption _ _ => true
  | _ => false
  end.

(** The operations that iterate over the transport's data. *)
Definition iterates_data (op : operation) : bool :=
  match op with
  | disruptions_list _ _ _ | disruptions_list_for_station _ _
  | disruptions_list_personal _ => true
  | _ => false
  end.

(** The model an operation validates the whole of the transport's data
    against, for the operations that do. *)
Definition response_model (op : operation) : option model_class :=
  match op with
  | stations_list_v2 _ _ _ _ | stations_list_nearest_v2 _ _ _ _ =>
      Some StationsV2Response
  | stations_list_v3 _ _ _ _ | stations_list_nearest_v3 _ _ _ _ =>
      Some StationsV3Response
  | stations_get _ _ => Some StationV3Response
  | travel_get_departures _ _ _ _ _ => Some RepresentationResponseDeparturesPayload
  | travel_get_arrivals _ _ _ _ _ => Some RepresentationResponseArrivalsPayload
  | travel_get_journey _ _ _ _ _ _ _ => Some RepresentationResponseJourney
  | travel_plan_trip _ _ _ => Some TravelAdvice
  | travel_get_trip _ _ _ _ _ _ _ _ _ _ | travel_get_booked_trip _ _ _ _ _ _ _ =>
      Some Trip
  | travel_get_price _ _ _ _ _ _ _ _ _ _ => Some RepresentationResponsePricesResponseV3
  | travel_get_price_v2 _ _ _ _ _ _ _ _ _ _ => Some RepresentationResponsePrice
  | travel_get_stations _ _ _ | travel_get_nearest_stations _ _ _ =>
      Some StationResponse
  | travel_get_calamities _ => Some CalamitiesResponse
  | _ => None
  end.

(** The Python name of a deprecated method. *)
Definition deprecated_method_name (op : operation) : string :=
  match op with
  | travel_get_stations _ _ _ => "get_stations"
  | travel_get_nearest_stations _ _ _ => "get_nearest_stations"
  | travel_get_calamities _ => "get_calamities"
  | travel_list_disruptions _ _ _ => "list_disruptions"
  | travel_list_station_disruptions _ => "list_station_disruptions"
  | travel_get_disruption _ _ => "get_disruption"
  | _ => ""
  end.

End request_tables.

(** *** More servers and states to run examples against *)

(** Servers that answer every request with a 401, with a 204 without
    body, and with a 200 whose body is not JSON; models that reject
    everything. *)
Definition unauthorized_external : External :=
  {| network := λ _ _, unauthorized;
     model_validate := accept_objects;
     model_dump := dump_attrs |}.

Definition no_content_external : External :=
  {| network := λ _ _, no_content;
     model_validate := accept_objects;
     model_dump := dump_attrs |}.

Definition html_page : Response :=
  {| status_code := 200; content := "<html>"; text := "<html>"; decoded := None |}.

Definition html_external : External :=
  {| network := λ _ _, html_page;
     model_validate := accept_objects;
     model_dump := dump_attrs |}.

Definition ok_object_external : External :=
  {| network := λ _ _, ok_empty_object;
     model_validate := λ _ _, None;
     model_dump := dump_attrs |}.

(** A client after [close()]. *)
Definition closed_world : world := (HttpTransport.close fresh_world).2.

(** [stations.get("8400058")], [get_departures("", uic_code="8400058")],
    [disruptions.list_personal("push-1")] and the deprecated
    [list_station_disruptions("ASD")]. *)
Definition station_8400058 : operation := stations_get "8400058" None.
Definition departures_no_station : operation :=
  travel_get_departures "" (Some "8400058") None None None.
Definition personal_push_1 : operation := disruptions_list_personal "push-1".
Definition station_disruptions_ASD : operation := travel_list_station_disruptions "ASD".

(** The float [0.0]. *)
Definition float_zero : pyfloat := S754_zero false.

(** The keyword arguments of [plan_trip] with at most [origin_lat],
    [origin_lng] and [passing] given. *)
Definition plan_trip_from_point (lat lng : option pyfloat) (pass : option bool)
    : TravelAPI.plan_trip_kwargs :=
  {|
     TravelAPI.origin_uic_code := None;
     TravelAPI.origin_lat := lat;
     TravelAPI.origin_lng := lng;
     TravelAPI.origin_name := None;
     TravelAPI.destination_uic_code := None;
     TravelAPI.destination_lat := None;
     TravelAPI.destination_lng := None;
     TravelAPI.destination_name := None;
     TravelAPI.via_station := None;
     TravelAPI.via_uic_code := None;
     TravelAPI.via_lat := None;
     TravelAPI.via_lng := None;
     TravelAPI.via_wait_time := None;
     TravelAPI.date_time := None;
     TravelAPI.search_for_arrival := None;
     TravelAPI.language := None;
     TravelAPI.context := None;
     TravelAPI.add_change_time := None;
     TravelAPI.passing := pass;
     TravelAPI.local_trains_only := None;
     TravelAPI.exclude_high_speed_trains := None;
     TravelAPI.exclude_trains_with_reservation_required := None;
     TravelAPI.travel_request_type := None;
     TravelAPI.filter_transport_mode := None;
     TravelAPI.disabled_transport_modalities := None;
     TravelAPI.origin_walk := None;
     TravelAPI.origin_bike := None;
     TravelAPI.origin_car := None;
     TravelAPI.destination_walk := None;
     TravelAPI.destination_bike := None;
     TravelAPI.destination_car := None;
     TravelAPI.first_mile_modality := None;
     TravelAPI.last_mile_modality := None;
     TravelAPI.entire_trip_modality := None;
     TravelAPI.travel_assistance := None;
     TravelAPI.search_for_accessible_trip := None;
     TravelAPI.accessibility_equipment1 := None;
     TravelAPI.accessibility_equipment2 := None;
     TravelAPI.product := None;
     TravelAPI.discount := None;
     TravelAPI.travel_class := None;
     TravelAPI.authorization := None;
     TravelAPI.nsr := None;
     TravelAPI.departure := None;
     TravelAPI.shorter_change := None;
     TravelAPI.minimal_change_time := None;
     TravelAPI.origin_accessible := None;
     TravelAPI.travel_assistance_transfer_time := None
  |}.

(** [plan_trip(to_station="UT", origin_lat=0.0, origin_lng=0.0,
    passing=False)] *)
Definition trip_from_origin_zero : operation :=
  travel_plan_trip None (Some "UT")
    (plan_trip_from_point (Some float_zero) (Some float_zero) (Some false)).

(** [get_booked_trip("arnu|test|ctx", 0, 0, "Bearer token123")] *)
Definition booked_trip_zero : operation :=
  travel_get_booked_trip "arnu|test|ctx" 0 0 "Bearer token123" None None None.

(** [get_price(adults=0, is_joint_journey=False)] *)
Definition price_no_adults : operation :=
  travel_get_price None None None None (Some false) (Some 0%Z) None None None None.

(** The language argument of the operations that send it in the query
    string. *)
Definition query_language (op : operation) : option string :=
  match op with
  | travel_get_departures _ _ _ _ l | travel_get_arrivals _ _ _ _ l
  | travel_get_calamities l => l
  | travel_plan_trip _ _ kw => TravelAPI.language kw
  | _ => None
  end.


(** ** src/scripts/generate_station_codes.py *)

From Stdlib Require Import Ascii.

Module generate_station_codes.
Section identifiers.

(** [unicodedata.normalize("NFKD", name).encode("ascii",
    errors="ignore").decode()]: the Unicode tables are the
    interpreter's. *)
Variable ascii_fold : string → string.

Definition code (c : Ascii.ascii) : nat := Ascii.nat_of_ascii c.

(** [\s] on the characters below 128: tab to carriage return, the four
    separators 28 to 31, and the space. *)
Definition is_space (c : Ascii.ascii) : bool :=
  (9 <=? code c) && (code c <=? 13) || (28 <=? code c) && (code c <=? 31)
  || (code c =? 32).

(** The class [[\s/\-]]. *)
Definition is_separator (c : Ascii.ascii) : bool :=
  is_space c || Ascii.eqb c "/"%char || Ascii.eqb c "-"%char.

Definition is_upper (c : Ascii.ascii) : bool := (65 <=? code c) && (code c <=? 90).
Definition is_lower (c : Ascii.ascii) : bool := (97 <=? code c) && (code c <=? 122).
Definition isdigit (c : Ascii.ascii) : bool := (48 <=? code c) && (code c <=? 57).

(** The class [[a-zA-Z0-9_]]. *)
Definition is_word (c : Ascii.ascii) : bool :=
  is_lower c || is_upper c || isdigit c || Ascii.eqb c "_"%char.

(** [s.replace(x, "")] for a single character [x]. *)
Fixpoint remove_char (x : Ascii.ascii) (s : string) : string :=
  match s with
  | EmptyString => EmptyString
  | String c rest =>
      if Ascii.eqb c x then remove_char x rest else String c (remove_char x rest)
  end.

(** [re.sub("[cls]+", "_", s)]: every maximal run of characters of the
    class becomes one underscore; [in_run] tells that the previous
    character belonged to the run being replaced. *)
Fixpoint sub_runs_from (cls : Ascii.ascii → bool) (in_run : bool) (s : string) : string :=
  match s with
  | EmptyString => EmptyString
  | String c rest =>
      if cls c then
        if in_run then sub_runs_from cls true rest
        else String "_"%char (sub_runs_from cls true rest)
      else String c (sub_runs_from cls false rest)
  end.

Definition sub_runs (cls : Ascii.ascii → bool) (s : string) : string :=
  sub_runs_from cls false s.

(** [re.sub("[^cls]", "_", s)] *)
Fixpoint sub_outside (cls : Ascii.ascii → bool) (s : string) : string :=
  match s with
  | EmptyString => EmptyString
  | String c rest =>
      String (if cls c then c else "_"%char) (sub_outside cls rest)
  end.

(** [s.lower()] on a string of word characters. *)
Definition lower_char (c : Ascii.ascii) : Ascii.ascii :=
  if is_upper c then Ascii.ascii_of_nat (code c + 32) else c.

Fixpoint lower (s : string) : string :=
  match s with
  | EmptyString => EmptyString
  | String c rest => String (lower_char c) (lower rest)
  end.

(** [s.lstrip("_")], [s.rstrip("_")] and [s.strip("_")] *)
Fixpoint lstrip (s : string) : string :=
  match s with
  | String c rest => if Ascii.eqb c "_"%char then lstrip rest else s
  | EmptyString => EmptyString
  end.

Fixpoint rstrip (s : string) : string :=
  match s with
  | EmptyString => EmptyString
  | String c rest =>
      match rstrip rest with
      | EmptyString => if Ascii.eqb c "_"%char then EmptyString else String c EmptyString
      | kept => String c kept
      end
  end.

Definition strip (s : string) : string := lstrip (rstrip s).

(** [_to_identifier]: a station's long name as a snake_case Python
    identifier. *)
Definition _to_identifier (name : string) : string :=
  let name := ascii_fold name in
  let name := remove_char "."%char (remove_char "'"%char name) in
  let name := sub_runs is_separator name in
  let name := sub_outside is_word name in
  let name := lower name in
  let name := strip (sub_runs (λ c, Ascii.eqb c "_"%char) name) in
  let name :=
    match name with
    | String c _ => if isdigit c then "_" +:+ name else name
    | EmptyString => name
    end in
  if truth name then name else "_unknown".

(** What a Python identifier is made of, as far as this script goes:
    lower-case letters, digits and underscores. *)
Definition is_identifier_char (c : Ascii.ascii) : bool :=
  is_lower c || isdigit c || Ascii.eqb c "_"%char.

Fixpoint all_chars (p : Ascii.ascii → bool) (s : string) : bool :=
  match s with
  | EmptyString => true
  | String c rest => p c && all_chars p rest
  end.

(** Two underscores in a row somewhere in the string. *)
Fixpoint has_double_underscore (s : string) : bool :=
  match s with
  | String c ((String d _) as rest) =>
      (Ascii.eqb c "_"%char && Ascii.eqb d "_"%char) || has_double_underscore rest
  | _ => false
  end.

(** The last character, if any. *)
Fixpoint last_char (s : string) : option Ascii.ascii :=
  match s with
  | EmptyString => None
  | String c EmptyString => Some c
  | String _ rest => last_char rest
  end.

(** The string starts with an underscore. *)
Definition starts_with_underscore (s : string) : bool :=
  match s with String c _ => Ascii.eqb c "_"%char | EmptyString => false end.

(** The class [[_]]. *)
Definition is_underscore (c : Ascii.ascii) : bool := Ascii.eqb c "_"%char.

(** The name as [_to_identifier] has it before its last two steps (the
    digit test and the fallback). *)
Definition stripped (name : string) : string :=
  strip (sub_runs (λ c, Ascii.eqb c "_"%char)
           (lower (sub_outside is_word
              (sub_runs is_separator
                 (remove_char "."%char (remove_char "'"%char (ascii_fold name))))))).

End identifiers.

(** Folding for names that are plain ASCII already. *)
Definition ascii_only (name : string) : string := name.

End generate_station_codes.

(** * Properties *)

(** ** The transport: responses *)

Section transport_facts.
Context `{External}.
Import HttpTransport.
Local Open Scope Z_scope.

Lemma _extract_error_message_total response :
  _extract_error_message response = Returned (extracted_message response).
Proof.
  unfold _extract_error_message, extracted_message, Response_json, try_except.
  destruct (decoded response) as [[]|]; reflexivity.
Qed.

Lemma _handle_response_failure response :
  is_success response = false →
  _handle_response response =
    Raised (Api (raised_class (status_code response))
                (extracted_message response) (status_code response)).
Proof.
  intros Hfail. unfold _handle_response, raised_class.
  rewrite Hfail, _extract_error_message_total. cbn.
  repeat case_match; reflexivity.
Qed.

Lemma _handle_response_success response :
  is_success response = true →
  _handle_response response =
    if negb (truth (content response)) then Returned PNone
    else Response_json response.
Proof. intros Hok. unfold _handle_response. by rewrite Hok. Qed.

End transport_facts.

(** C1. For every response that is not a success the transport raises,
    and the class of the error is fixed by the status code: 401 and 403
    raise [AuthenticationError], 404 raises [NotFoundError], 429 raises
    [RateLimitError], every status from 500 on raises [ServerError] and
    every other status from 400 on raises the generic [APIError]; the
    error carries the extracted message and the status code, and no
    value is returned. *)
Theorem transport_error_mapping (response : Response) :
  is_success response = false →
  let status := status_code response in
  let raises cls :=
    HttpTransport._handle_response response =
      Raised (Api cls (extracted_message response) status) in
  HttpTransport._extract_error_message response =
    Returned (extracted_message response) ∧
  (status = 401 ∨ status = 403 → raises AuthenticationError)%Z ∧
  (status = 404 → raises NotFoundError)%Z ∧
  (status = 429 → raises RateLimitError)%Z ∧
  (500 ≤ status → raises ServerError)%Z ∧
  (400 ≤ status → status < 500 →
   status ≠ 401 → status ≠ 403 → status ≠ 404 → status ≠ 429 →
   raises APIError)%Z ∧
  (∀ v, HttpTransport._handle_response response ≠ Returned v).
Proof.
  intros Hfail status raises. subst raises. cbn beta.
  rewrite (_handle_response_failure _ Hfail).
  split; [apply _extract_error_message_total|].
  fold status. unfold raised_class.
  repeat split.
  - intros [-> | ->]; reflexivity.
  - intros ->; reflexivity.
  - intros ->; reflexivity.
  - intros Hge.
    destruct (status =? 401)%Z eqn:?; [lia|].
    destruct (status =? 403)%Z eqn:?; [lia|].
    destruct (status =? 404)%Z eqn:?; [lia|].
    destruct (status =? 429)%Z eqn:?; [lia|].
    destruct (500 <=? status)%Z eqn:?; [reflexivity|lia].
  - intros ? ? ? ? ? ?.
    destruct (status =? 401)%Z eqn:?; [lia|].
    destruct (status =? 403)%Z eqn:?; [lia|].
    destruct (status =? 404)%Z eqn:?; [lia|].
    destruct (status =? 429)%Z eqn:?; [lia|].
    destruct (500 <=? status)%Z eqn:?; [lia|reflexivity].
  - discriminate.
Qed.

Lemma transport_error_mapping_witness :
  is_success unauthorized = false ∧
  HttpTransport._handle_response unauthorized =
    Raised (Api AuthenticationError (PStr "{}") 401).
Proof.
  split; [reflexivity|].
  destruct (transport_error_mapping unauthorized eq_refl) as (_ & Hauth & _).
  apply Hauth. left. reflexivity.
Defined.

(** C10. Response handling is total over the statuses that are not a
    success: a status outside the table, such as 304 or any other 3xx,
    raises the generic [APIError] with the extracted message and that
    status, so no such response comes back as a value. *)
Theorem transport_error_mapping_total (response : Response) :
  is_success response = false →
  let status := status_code response in
  (status ≠ 401 → status ≠ 403 → status ≠ 404 → status ≠ 429 → status < 500 →
   HttpTransport._handle_response response =
     Raised (Api APIError (extracted_message response) status))%Z ∧
  (300 ≤ status ≤ 399 →
   HttpTransport._handle_response response =
     Raised (Api APIError (extracted_message response) status))%Z ∧
  (∃ cls, HttpTransport._handle_response response =
            Raised (Api cls (extracted_message response) status)) ∧
  (∀ v, HttpTransport._handle_response response ≠ Returned v).
Proof.
  intros Hfail status.
  rewrite (_handle_response_failure _ Hfail). fold status.
  assert (∀ s : Z, s ≠ 401 → s ≠ 403 → s ≠ 404 → s ≠ 429 → s < 500 →
                   raised_class s = APIError)%Z as Hother.
  { intros s ? ? ? ? ?. unfold raised_class.
    destruct (s =? 401)%Z eqn:?; [lia|].
    destruct (s =? 403)%Z eqn:?; [lia|].
    destruct (s =? 404)%Z eqn:?; [lia|].
    destruct (s =? 429)%Z eqn:?; [lia|].
    destruct (500 <=? s)%Z eqn:?; [lia|reflexivity]. }
  repeat split.
  - intros. by rewrite Hother.
  - intros. by rewrite Hother by lia.
  - eauto.
  - discriminate.
Qed.

Lemma transport_error_mapping_total_witness :
  is_success not_modified = false ∧
  HttpTransport._handle_response not_modified = Raised (Api APIError (PStr "") 304).
Proof.
  split; [reflexivity|].
  destruct (transport_error_mapping_total not_modified eq_refl) as (_ & H3xx & _).
  apply H3xx. cbn. lia.
Defined.

(** C6. For every response that is not a success, the message of the
    raised error is the [message] entry of the body when the body
    decodes to a JSON object that has one, and the raw response text
    when the body is not JSON, is not an object, or has no such entry;
    extracting the message never raises. In particular an object body
    with message [X] on a 400 gives message [X], and a body [Y] that is
    not JSON on a 500 gives message [Y]. *)
Theorem error_message_extraction (response : Response) :
  is_success response = false →
  let status := status_code response in
  let raises_with message :=
    ∃ cls, HttpTransport._handle_response response = Raised (Api cls message status) in
  (∀ d m, decoded response = Some (PDict d) → d !! "message" = Some m →
          raises_with m) ∧
  (decoded response = None → raises_with (PStr (text response))) ∧
  (∀ v, decoded response = Some v → (∀ d, v ≠ PDict d) →
        raises_with (PStr (text response))) ∧
  (∀ d, decoded response = Some (PDict d) → d !! "message" = None →
        raises_with (PStr (text response))) ∧
  (∃ m, HttpTransport._extract_error_message response = Returned m) ∧
  (∀ X, status = 400%Z → decoded response = Some (PDict {[ "message" := PStr X ]}) →
        HttpTransport._handle_response response =
          Raised (Api APIError (PStr X) 400)) ∧
  (∀ Y, status = 500%Z → decoded response = None → text response = Y →
        HttpTransport._handle_response response =
          Raised (Api ServerError (PStr Y) 500)).
Proof.
  intros Hfail status raises_with. subst raises_with. cbn beta.
  rewrite (_handle_response_failure _ Hfail). fold status.
  unfold extracted_message.
  repeat split.
  - intros d m -> ->. eauto.
  - intros ->. eauto.
  - intros v -> Hv. destruct v; eauto. by destruct (Hv d).
  - intros d -> ->. eauto.
  - rewrite _extract_error_message_total. eauto.
  - intros X -> ->. by rewrite lookup_singleton_eq.
  - intros Y -> -> <-. reflexivity.
Qed.

Lemma error_message_extraction_witness :
  is_success bad_request_X = false ∧
  HttpTransport._handle_response bad_request_X = Raised (Api APIError (PStr "X") 400).
Proof.
  split; [reflexivity|].
  destruct (error_message_extraction bad_request_X eq_refl) as (_ & _ & _ & _ & _ & HX & _).
  apply HX; reflexivity.
Defined.

(** C7. For every successful response, the transport returns [None],
    the marker for "no content", when the body is empty; the marker is
    neither the empty object nor the empty list. When the body is not
    empty and decodes, the transport returns the decoded value as it is,
    without validating it and without raising. *)
Theorem transport_success (response : Response) :
  is_success response = true →
  (content response = "" → HttpTransport._handle_response response = Returned PNone) ∧
  (∀ v, content response ≠ "" → decoded response = Some v →
        HttpTransport._handle_response response = Returned v) ∧
  PNone ≠ PDict ∅ ∧ PNone ≠ PList [].
Proof.
  intros Hok. rewrite (_handle_response_success _ Hok).
  repeat split; try discriminate.
  - intros ->. reflexivity.
  - intros v Hne Hv. unfold Response_json. rewrite Hv.
    destruct (content response); [done | reflexivity].
Qed.

Lemma transport_success_witness :
  is_success no_content = true ∧
  HttpTransport._handle_response no_content = Returned PNone.
Proof.
  split; [reflexivity|].
  destruct (transport_success no_content eq_refl) as (Hempty & _).
  apply Hempty. reflexivity.
Defined.

(** ** Running a method *)

Section running.
Context `{External}.

Lemma log_warnings_nil w : log_warnings [] w = w.
Proof. destruct w. unfold log_warnings. cbn. by rewrite app_nil_r. Qed.

Lemma log_warnings_app ws1 ws2 w :
  log_warnings ws2 (log_warnings ws1 w) = log_warnings (ws1 ++ ws2) w.
Proof. unfold log_warnings. cbn. by rewrite app_assoc. Qed.

Lemma emit_then {A} ws (m : M A) w : (emit ws;; m) w = m (log_warnings ws w).
Proof. reflexivity. Qed.

(** One [if x is not None: warnings.warn(...)]. *)
Lemma warn_if_run {A} (x : option A) text w :
  (if x is Some _ then warnings_warn text DeprecationWarning 2 else mret ()) w =
  (Returned (),
   log_warnings (if x is Some _ then [Warning text DeprecationWarning 2] else []) w).
Proof. destruct x; [reflexivity|]. by rewrite log_warnings_nil. Qed.

Lemma seq_run {A} (m : M unit) (k : M A) w w' :
  m w = (Returned (), w') → (m;; k) w = k w'.
Proof. intros Hm. unfold mbind, M_bind. by rewrite Hm. Qed.

Lemma bind_lift_Returned {A} (m : M A) w :
  (m ≫= λ a, lift (Returned a)) w = m w.
Proof. unfold mbind, M_bind, lift. by destruct (m w) as [[]]. Qed.

Lemma plan_trip_warnings_run f t kw w :
  TravelAPI.plan_trip_warnings kw w =
    (Returned (), log_warnings (deprecation_notices (travel_plan_trip f t kw)) w).
Proof.
  unfold TravelAPI.plan_trip_warnings.
  repeat (erewrite seq_run by apply warn_if_run).
  rewrite warn_if_run, !log_warnings_app. do 2 f_equal.
  unfold deprecation_notices, supplied_deprecated_args, deprecated_args, deprecated_method.
  destruct (TravelAPI.departure kw), (TravelAPI.shorter_change kw),
    (TravelAPI.minimal_change_time kw), (TravelAPI.origin_accessible kw),
    (TravelAPI.travel_assistance_transfer_time kw); reflexivity.
Qed.

(** Every operation is: its deprecation warnings, then the plain call. *)
Lemma perform_anatomy op w :
  perform op w = (emit (deprecation_notices op);; plain_call op) w.
Proof.
  rewrite emit_then.
  destruct op;
    try (change (deprecation_notices _) with (@nil warning);
         rewrite log_warnings_nil; reflexivity);
    try reflexivity.
  - cbn [perform]. unfold TravelAPI.plan_trip.
    erewrite seq_run by apply (plan_trip_warnings_run from_station to_station).
    reflexivity.
  - cbn [perform]. unfold TravelAPI.get_trip.
    erewrite seq_run by apply warn_if_run.
    destruct source_ctx_recon; reflexivity.
  - unfold plain_call. cbn [post_process]. by rewrite bind_lift_Returned.
  - unfold plain_call. cbn [post_process]. by rewrite bind_lift_Returned.
  - unfold plain_call. cbn [post_process]. by rewrite bind_lift_Returned.
Qed.

Lemma transport_call_run req w :
  transport_call req w =
    if client_closed w then (Raised RuntimeError, w)
    else (HttpTransport._handle_response (network (sent w) req), log_request req w).
Proof.
  unfold transport_call, HttpTransport.client_request, mbind, M_bind, lift.
  destruct (client_closed w); reflexivity.
Qed.

(** The plain call neither reads nor writes the warnings. *)
Lemma transport_call_frame req ws w :
  transport_call req (log_warnings ws w) =
    ((transport_call req w).1, log_warnings ws (transport_call req w).2).
Proof.
  rewrite !transport_call_run. cbn [client_closed log_warnings sent].
  destruct (client_closed w); reflexivity.
Qed.

Lemma plain_call_run op w :
  plain_call op w =
    if client_closed w then (Raised RuntimeError, w)
    else (HttpTransport._handle_response (network (sent w) (request_of op))
            ≫= post_process op,
          log_request (request_of op) w).
Proof.
  unfold plain_call.
  change ((transport_call (request_of op) ≫= λ data, lift (post_process op data)) w)
    with (match transport_call (request_of op) w with
          | (Returned a, w') => lift (post_process op a) w'
          | (Raised e, w') => (Raised e, w')
          end).
  rewrite transport_call_run.
  destruct (client_closed w); [reflexivity|].
  destruct (HttpTransport._handle_response _); reflexivity.
Qed.

Lemma plain_call_frame op ws w :
  plain_call op (log_warnings ws w) =
    ((plain_call op w).1, log_warnings ws (plain_call op w).2).
Proof.
  rewrite !plain_call_run. cbn [client_closed log_warnings sent].
  destruct (client_closed w); reflexivity.
Qed.

Lemma perform_run op w :
  perform op w =
    ((plain_call op w).1, log_warnings (deprecation_notices op) (plain_call op w).2).
Proof. by rewrite perform_anatomy, emit_then, plain_call_frame. Qed.

Lemma plain_call_emitted op w : emitted (plain_call op w).2 = emitted w.
Proof. rewrite plain_call_run. by destruct (client_closed w). Qed.

Lemma plain_call_sent op w :
  sent (plain_call op w).2 =
    sent w ++ (if client_closed w then [] else [request_of op]).
Proof.
  rewrite plain_call_run. destruct (client_closed w); cbn; by rewrite ?app_nil_r.
Qed.

Lemma perform_sent op w :
  sent (perform op w).2 =
    sent w ++ (if client_closed w then [] else [request_of op]).
Proof. rewrite perform_run. cbn. apply plain_call_sent. Qed.

Lemma perform_emitted op w :
  emitted (perform op w).2 = emitted w ++ deprecation_notices op.
Proof. rewrite perform_run. cbn. by rewrite plain_call_emitted. Qed.

Lemma sent_by_perform op w :
  sent_by (perform op) w = if client_closed w then [] else [request_of op].
Proof. unfold sent_by. by rewrite perform_sent, drop_app_length. Qed.

Lemma emitted_by_perform op w :
  emitted_by (perform op) w = deprecation_notices op.
Proof. unfold emitted_by. by rewrite perform_emitted, drop_app_length. Qed.

End running.

(** ** What a request holds *)

Ltac eval_lookup :=
  cbn [lookup_after String.eqb Ascii.eqb Bool.eqb optional_query_args take drop app];
  rewrite ?lookup_empty.

Ltac each_entry :=
  repeat apply List.Forall_cons; try apply List.Forall_nil; cbn [fst snd].

Ltac split_args :=
  repeat match goal with x : option _ |- _ => destruct x end.

Section requests.
Context `{External}.

Lemma lookup__set params k v key :
  TravelAPI._set params k v !! key =
    if String.eqb key k then from_option Some (params !! key) (stored v)
    else params !! key.
Proof.
  unfold TravelAPI._set, stored.
  destruct (String.eqb_spec key k) as [->|Hne].
  - destruct (is_not_None v); [apply lookup_insert_eq | reflexivity].
  - destruct (is_not_None v); [by apply lookup_insert_ne | reflexivity].
Qed.

Lemma lookup_set_all offers : ∀ params key,
  set_all params offers !! key = lookup_after (params !! key) key offers.
Proof.
  induction offers as [|[k v] rest IH]; intros params key; [reflexivity|].
  cbn [set_all foldl lookup_after fst snd].
  change (foldl _ ?p rest) with (set_all p rest).
  by rewrite IH, lookup__set.
Qed.

(** The [_set] runs of the travel module, as offer lists. In
    [plan_trip] the offer of [searchForArrival] stands between those of
    [dateTime] and [lang]. *)
Lemma plan_trip_params_offers f t kw :
  TravelAPI.plan_trip_params f t kw =
    set_all ∅
      (take 16 (optional_query_args (travel_plan_trip f t kw)) ++
       [("searchForArrival",
         py_or (PBool (default false (TravelAPI.search_for_arrival kw))) PNone)] ++
       drop 16 (optional_query_args (travel_plan_trip f t kw))).
Proof.
  cbn [optional_query_args take drop app].
  unfold TravelAPI.plan_trip_params, set_all. cbn [foldl fst snd].
  destruct (TravelAPI.date_time kw); reflexivity.
Qed.

Lemma get_trip_params_offers c d r p di tc a l n s :
  TravelAPI.get_trip_params c d r p di tc n s =
    set_all (<["travelRequestType" := PStr (default "DEFAULT" r)]>
               {[ "ctxRecon" := PStr c ]})
            (optional_query_args (travel_get_trip c d r p di tc a l n s)).
Proof. destruct d; reflexivity. Qed.

Lemma get_booked_trip_params_offers c b o a e1 e2 l :
  TravelAPI.get_booked_trip_params c b o e1 e2 =
    set_all (<["originalTripRequestId" := PInt o]>
               (<["bookingNumber" := PInt b]> {[ "ctxRecon" := PStr c ]}))
            (optional_query_args (travel_get_booked_trip c b o a e1 e2 l)).
Proof. reflexivity. Qed.

Lemma get_price_params_offers f t c ty j a ch r pd pa :
  TravelAPI.get_price_params f t c ty j a ch r pd pa =
    set_all (<["children" := PInt (default 0%Z ch)]>
               (<["adults" := PInt (default 1%Z a)]>
                  {[ "isJointJourney" := PBool (default false j) ]}))
            (optional_query_args (travel_get_price f t c ty j a ch r pd pa)).
Proof. destruct c, pd, pa; reflexivity. Qed.

Lemma get_price_v2_params_offers f t c ty j a ch r pf pa :
  TravelAPI.get_price_v2_params f t c ty j a ch r pf pa =
    set_all (<["children" := PInt (default 0%Z ch)]>
               (<["adults" := PInt (default 1%Z a)]>
                  {[ "isJointJourney" := PBool (default false j) ]}))
            (optional_query_args (travel_get_price_v2 f t c ty j a ch r pf pa)).
Proof. destruct pf, pa; reflexivity. Qed.

Ltac by_offers Hoffers :=
  unfold query; cbn [request_of req_params default from_option id];
  rewrite Hoffers; cbn [optional_query_args]; each_entry;
  rewrite lookup_set_all; eval_lookup;
  match goal with
  | |- context [stored ?v] => destruct (stored v); [reflexivity | try reflexivity]
  end;
  vm_compute; reflexivity.

(** A parameter with default [None] is in the query exactly when it
    was given, and then with the value given. *)
Lemma optional_query_lookup op :
  Forall (λ a, query op !! a.1 = stored a.2) (optional_query_args op).
Proof.
  destruct op.
  14: by_offers (plan_trip_params_offers from_station to_station kw).
  14: by_offers (get_trip_params_offers ctx_recon date travel_request_type product
                   discount travel_class authorization language nsr source_ctx_recon).
  14: by_offers (get_booked_trip_params_offers ctx_recon booking_number
                   original_trip_request_id authorization accessibility_equipment1
                   accessibility_equipment2 language).
  14: by_offers (get_price_params_offers from_station to_station travel_class
                   travel_type is_joint_journey adults children route_id
                   planned_departure_time planned_arrival_time).
  14: by_offers (get_price_v2_params_offers from_station to_station travel_class
                   travel_type is_joint_journey adults children route_id
                   planned_from_time planned_arrival_time).
  all: cbn [optional_query_args]; try apply List.Forall_nil.
  all: try destruct station.
  all: split_args; each_entry; vm_compute; reflexivity.
Qed.

Lemma optional_query_elem op k v :
  (k, v) ∈ optional_query_args op → query op !! k = stored v.
Proof.
  intros Hin.
  exact (proj1 (Forall_forall _ _) (optional_query_lookup op) (k, v) Hin).
Qed.

(** A parameter with another default is always in the query, with the
    value given or else the default. *)
Lemma defaulted_query_lookup op :
  Forall (λ a, query op !! a.1.1 = Some (default a.2 a.1.2)) (defaulted_query_args op).
Proof.
  destruct op; cbn [defaulted_query_args]; try apply List.Forall_nil.
  4: unfold query; cbn [request_of req_params default from_option id];
     rewrite (get_trip_params_offers _ _ _ _ _ _ authorization language).
  5: unfold query; cbn [request_of req_params default from_option id];
     rewrite get_price_params_offers.
  6: unfold query; cbn [request_of req_params default from_option id];
     rewrite get_price_v2_params_offers.
  4-6: each_entry; rewrite lookup_set_all; eval_lookup;
       repeat match goal with |- context [default _ ?x] => is_var x; destruct x end;
       vm_compute; reflexivity.
  all: each_entry.
  all: try destruct station.
  all: split_args.
  all: vm_compute; reflexivity.
Qed.

Lemma defaulted_query_elem op k s d :
  (k, s, d) ∈ defaulted_query_args op → query op !! k = Some (default d s).
Proof.
  intros Hin.
  exact (proj1 (Forall_forall _ _) (defaulted_query_lookup op) (k, s, d) Hin).
Qed.

(** No query value is [None]. *)
Lemma no_None__set params k v :
  map_Forall (λ _ x, x ≠ PNone) params →
  map_Forall (λ _ x, x ≠ PNone) (TravelAPI._set params k v).
Proof.
  intros Hp. unfold TravelAPI._set. destruct v; cbn; try done;
    by apply map_Forall_insert_2.
Qed.

Lemma query_no_None op : map_Forall (λ _ x, x ≠ PNone) (query op).
Proof.
  unfold query.
  destruct op; cbn [request_of req_params default from_option id];
    try apply map_Forall_empty.
  all: cbv beta delta
         [DisruptionsAPI.list_params StationsAPI.list_v2_params
          StationsAPI.list_nearest_v2_params StationsAPI.list_v3_params
          StationsAPI.list_nearest_v3_params StationsAPI.get_params
          TravelAPI.get_departures_params TravelAPI.get_arrivals_params
          TravelAPI.get_journey_params TravelAPI.plan_trip_params
          TravelAPI.get_trip_params TravelAPI.get_booked_trip_params
          TravelAPI.get_price_params TravelAPI.get_price_v2_params
          TravelAPI.get_stations_params TravelAPI.get_nearest_stations_params
          TravelAPI.get_calamities_params TravelAPI.list_disruptions_params] zeta.
  all: repeat first
         [ apply no_None__set
         | apply map_Forall_insert_2; [discriminate|]
         | apply map_Forall_singleton; discriminate
         | apply map_Forall_empty
         | match goal with
           | |- map_Forall _ (match ?x with _ => _ end) => destruct x
           | |- map_Forall _ (if ?x then _ else _) => destruct x
           end ].
Qed.

(** [search_for_arrival] goes by truth, not by presence. *)
Lemma search_for_arrival_lookup f t kw :
  query (travel_plan_trip f t kw) !! "searchForArrival" =
    if default false (TravelAPI.search_for_arrival kw) then Some (PBool true) else None.
Proof.
  unfold query; cbn [request_of req_params default from_option id].
  rewrite plan_trip_params_offers, lookup_set_all. eval_lookup.
  destruct (TravelAPI.search_for_arrival kw) as [[]|]; reflexivity.
Qed.

(** A header-bearing parameter is in the headers exactly when it was
    given, under the name [header_name] tells. *)
Lemma header_lookup op :
  Forall (λ a, headers op !! header_name op a.1 = a.2) (header_args op).
Proof.
  destruct op; cbn [header_args]; try apply List.Forall_nil; each_entry.
  all: unfold headers; cbn [request_of req_headers header_name].
  all: try destruct (TravelAPI.authorization kw) eqn:Hauth.
  all: try (unfold TravelAPI.plan_trip_headers; rewrite Hauth).
  all: repeat match goal with x : option string |- _ => destruct x end.
  all: vm_compute; reflexivity.
Qed.

Lemma language_in_query_no_header op :
  language_in_query op = true →
  headers op !! "lang" = None ∧ headers op !! "Accept-Language" = None.
Proof.
  destruct op; try discriminate; intros _; unfold headers;
    cbn [request_of req_headers]; try (split; reflexivity).
  unfold TravelAPI.plan_trip_headers.
  destruct (TravelAPI.authorization kw); split; vm_compute; reflexivity.
Qed.

(** A positional argument is always in the query. *)
Lemma required_query_lookup op :
  Forall (λ a, query op !! a.1 = Some a.2) (required_query_args op).
Proof.
  unfold query.
  destruct op; cbn [required_query_args]; try apply List.Forall_nil;
    cbn [request_of req_params default from_option id].
  4: rewrite (get_trip_params_offers _ _ _ _ _ _ authorization language).
  5: rewrite (get_booked_trip_params_offers _ _ _ authorization _ _ language).
  4-5: each_entry; rewrite lookup_set_all; eval_lookup;
       repeat match goal with |- context [default _ ?x] => is_var x; destruct x end;
       vm_compute; reflexivity.
  all: each_entry; split_args; vm_compute; reflexivity.
Qed.

Lemma required_query_elem op k v :
  (k, v) ∈ required_query_args op → query op !! k = Some v.
Proof.
  intros Hin.
  exact (proj1 (Forall_forall _ _) (required_query_lookup op) (k, v) Hin).
Qed.

(** An argument tested for truth is in the query exactly when it is
    true. *)
Lemma truth_gated_query_lookup op :
  Forall (λ a, query op !! a.1 = if truth a.2 then Some a.2 else None)
         (truth_gated_query_args op).
Proof.
  destruct op; cbn [truth_gated_query_args]; try apply List.Forall_nil; each_entry.
  3: { rewrite search_for_arrival_lookup.
       by destruct (default false (TravelAPI.search_for_arrival kw)). }
  all: unfold query; cbn [request_of req_params default from_option id].
  all: destruct station; split_args; vm_compute; reflexivity.
Qed.

Lemma truth_gated_query_elem op k v :
  (k, v) ∈ truth_gated_query_args op →
  query op !! k = if truth v then Some v else None.
Proof.
  intros Hin.
  exact (proj1 (Forall_forall _ _) (truth_gated_query_lookup op) (k, v) Hin).
Qed.

(** The operations that send the language in the query send it under
    [lang]. *)
Lemma query_language_lookup op :
  language_in_query op = true → query op !! "lang" = PStr <$> query_language op.
Proof.
  intros Hq.
  assert (("lang", of_opt PStr (query_language op)) ∈ optional_query_args op) as Hin
    by (destruct op; try discriminate; cbn; repeat constructor).
  rewrite (optional_query_elem _ _ _ Hin). by destruct (query_language op).
Qed.

End requests.

(** ** The endpoint modules: query parameters *)

(** C2, as the code has it. For every call of an endpoint operation, a
    parameter whose default is [None] and which the caller left out is
    not a key of the query parameters, and one that was given is there
    with the value given; no query value is ever [None]. A parameter
    declared with another default ([max_journeys], [omit_crowd_forecast],
    [travel_request_type], [is_joint_journey], [adults], [children],
    [limit] of the deprecated station methods, [is_active] of
    [list_disruptions]) is always sent: the value given, else the
    default. *)
Theorem optional_parameter_omission `{External} (op : operation) :
  (∀ k, (k, PNone) ∈ optional_query_args op → query op !! k = None) ∧
  (∀ k v, (k, v) ∈ optional_query_args op → v ≠ PNone → query op !! k = Some v) ∧
  (∀ k v, (k, v) ∈ optional_query_args op → is_Some (query op !! k) → v ≠ PNone) ∧
  (∀ k v, query op !! k = Some v → v ≠ PNone) ∧
  (∀ k s d, (k, s, d) ∈ defaulted_query_args op →
            query op !! k = Some (default d s)).
Proof.
  repeat split.
  - intros k Hin. by rewrite (optional_query_elem _ _ _ Hin).
  - intros k v Hin Hv. rewrite (optional_query_elem _ _ _ Hin).
    by destruct v.
  - intros k v Hin [x Hx] ->. rewrite (optional_query_elem _ _ _ Hin) in Hx.
    discriminate.
  - intros k v Hk. exact (query_no_None op k v Hk).
  - intros k s d Hin. by apply defaulted_query_elem.
Qed.

Lemma optional_parameter_omission_witness :
  ("id", PNone) ∈ optional_query_args journey_6952 ∧
  @query demo_external journey_6952 !! "id" = None.
Proof.
  assert (("id", PNone) ∈ optional_query_args journey_6952) as Hin
    by (cbn; repeat constructor).
  split; [exact Hin|].
  destruct (@optional_parameter_omission demo_external journey_6952) as (Hunset & _).
  exact (Hunset "id" Hin).
Defined.

(** The unrestricted statement of C2 does not hold:
    [get_journey(train=6952)] leaves [omit_crowd_forecast] out and still
    sends [omitCrowdForecast], and a caller's empty string is sent as an
    empty value. *)
Lemma optional_parameter_omission_counterexample :
  @query demo_external journey_6952 !! "omitCrowdForecast" = Some (PBool false) ∧
  @query demo_external journey_6952 !! "omitCrowdForecast" ≠ None ∧
  @query demo_external trip_from_empty !! "fromStation" = Some (PStr "").
Proof. repeat split; vm_compute; congruence. Qed.

(** C3, as the code has it. For every endpoint parameter other than
    [search_for_arrival] of [plan_trip], an explicit [False] or a
    numeric zero ([0] or [0.0]) is in the query under the parameter's
    key with that value, whether the parameter is required, has a
    default other than [None], or is optional: a required argument is
    put in the query as it is, a defaulted parameter is always sent, and
    an optional parameter is tested with [is not None], so that any
    value that is not [None], true or false, is sent. The arguments
    tested by truth are [search_for_arrival] of [plan_trip], passed as
    [search_for_arrival or None], and the station string of
    [get_departures] and [get_arrivals]: the key [searchForArrival] is
    sent, with [True], only when the argument is true, and is left out
    for an explicit [False] as for no argument. *)
Theorem explicit_falsy_parameters `{External} (op : operation) :
  (∀ k v, (k, v) ∈ optional_query_args op → v = PBool false ∨ v = PInt 0 →
          query op !! k = Some v) ∧
  (∀ k s d, (k, s, d) ∈ defaulted_query_args op →
            s = Some (PBool false) ∨ s = Some (PInt 0) → query op !! k = s) ∧
  (∀ f t kw, op = travel_plan_trip f t kw →
     query op !! "searchForArrival" =
       match TravelAPI.search_for_arrival kw with
       | Some true => Some (PBool true)
       | Some false | None => None
       end) ∧
  (∀ k v, (k, v) ∈ optional_query_args op → v ≠ PNone → truth v = false →
          query op !! k = Some v) ∧
  (∀ k sign, (k, PFloat (S754_zero sign)) ∈ optional_query_args op →
             query op !! k = Some (PFloat (S754_zero sign))) ∧
  (∀ k x d, (k, Some x, d) ∈ defaulted_query_args op → query op !! k = Some x) ∧
  (∀ k v, (k, v) ∈ required_query_args op → query op !! k = Some v) ∧
  (∀ k v, (k, v) ∈ truth_gated_query_args op →
          query op !! k = if truth v then Some v else None).
Proof.
  split; [|split; [|split; [|split; [|split; [|split; [|split]]]]]].
  - intros k v Hin Hv. rewrite (optional_query_elem _ _ _ Hin).
    by destruct Hv as [-> | ->].
  - intros k s d Hin Hs. rewrite (defaulted_query_elem _ _ _ _ Hin).
    by destruct Hs as [-> | ->].
  - intros f t kw ->. rewrite search_for_arrival_lookup.
    by destruct (TravelAPI.search_for_arrival kw) as [[]|].
  - intros k v Hin Hv _. rewrite (optional_query_elem _ _ _ Hin). by destruct v.
  - intros k sign Hin. by rewrite (optional_query_elem _ _ _ Hin).
  - intros k x d Hin. by rewrite (defaulted_query_elem _ _ _ _ Hin).
  - intros k v Hin. by apply required_query_elem.
  - intros k v Hin. by apply truth_gated_query_elem.
Qed.

Lemma explicit_falsy_parameters_witness :
  ("addChangeTime", PInt 0) ∈ optional_query_args trip_change_time_0 ∧
  @query demo_external trip_change_time_0 !! "addChangeTime" = Some (PInt 0) ∧
  ("originLat", PFloat float_zero) ∈ optional_query_args trip_from_origin_zero ∧
  @query demo_external trip_from_origin_zero !! "originLat" = Some (PFloat float_zero) ∧
  ("passing", PBool false) ∈ optional_query_args trip_from_origin_zero ∧
  @query demo_external trip_from_origin_zero !! "passing" = Some (PBool false) ∧
  ("bookingNumber", PInt 0) ∈ @required_query_args booked_trip_zero ∧
  @query demo_external booked_trip_zero !! "bookingNumber" = Some (PInt 0) ∧
  ("adults", Some (PInt 0), PInt 1) ∈ defaulted_query_args price_no_adults ∧
  @query demo_external price_no_adults !! "adults" = Some (PInt 0).
Proof.
  assert (("addChangeTime", PInt 0) ∈ optional_query_args trip_change_time_0) as Hin
    by (cbn; repeat constructor).
  assert (("originLat", PFloat float_zero) ∈ optional_query_args trip_from_origin_zero)
    as Hlat by (cbn; repeat constructor).
  assert (("passing", PBool false) ∈ optional_query_args trip_from_origin_zero)
    as Hpass by (cbn; repeat constructor).
  assert (("bookingNumber", PInt 0) ∈ @required_query_args booked_trip_zero)
    as Hbook by (cbn; repeat constructor).
  assert (("adults", Some (PInt 0), PInt 1) ∈ defaulted_query_args price_no_adults)
    as Hadults by (cbn; repeat constructor).
  destruct (@explicit_falsy_parameters demo_external trip_change_time_0)
    as (Hfalsy & _).
  destruct (@explicit_falsy_parameters demo_external trip_from_origin_zero)
    as (_ & _ & _ & Htruth & _).
  destruct (@explicit_falsy_parameters demo_external booked_trip_zero)
    as (_ & _ & _ & _ & _ & _ & Hrequired & _).
  destruct (@explicit_falsy_parameters demo_external price_no_adults)
    as (_ & _ & _ & _ & _ & Hdefaulted & _).
  split; [exact Hin|]. split; [apply (Hfalsy _ _ Hin); by right|].
  split; [exact Hlat|]. split; [by apply (Htruth _ _ Hlat)|].
  split; [exact Hpass|]. split; [by apply (Htruth _ _ Hpass)|].
  split; [exact Hbook|]. split; [exact (Hrequired _ _ Hbook)|].
  split; [exact Hadults|]. exact (Hdefaulted _ _ _ Hadults).
Defined.

(** The unrestricted statement of C3 does not hold:
    [plan_trip("ASD", "UT", search_for_arrival=False)] sends no
    [searchForArrival] key. *)
Lemma explicit_falsy_parameters_counterexample :
  TravelAPI.search_for_arrival (plan_trip_with (Some false) None None None) = Some false ∧
  @query demo_external trip_arrival_False !! "searchForArrival" = None ∧
  @query demo_external trip_arrival_False !! "searchForArrival" ≠ Some (PBool false).
Proof. repeat split; vm_compute; congruence. Qed.

(** ** The endpoint modules: headers *)

(** C8, as the code has it. The push id, the bearer authorization and
    the sync api key each travel under one header name in every
    operation that takes them ([x-ns-push-id], [Authorization],
    [x-api-key]). The language does not: the operations of the
    Disruptions API and [TravelAPI.list_disruptions] send it as
    [Accept-Language], [get_trip] and [get_booked_trip] send it as the
    header [lang], and [get_departures], [get_arrivals], [plan_trip] and
    [get_calamities] send it as the query parameter [lang] and as no
    header. A header-bearing parameter that was not given sets no
    header, and every call sends at most one request. *)
Theorem header_parameters `{External} (op : operation) (w : world) :
  (∀ p v, (p, v) ∈ header_args op → headers op !! header_name op p = v) ∧
  (∀ op' p, p ≠ language_param → header_name op p = header_name op' p) ∧
  (header_name op language_param = "Accept-Language" ∨
   header_name op language_param = "lang") ∧
  (language_in_query op = true →
   headers op !! "lang" = None ∧ headers op !! "Accept-Language" = None) ∧
  sent_by (perform op) w = (if client_closed w then [] else [request_of op]) ∧
  length (sent_by (perform op) w) ≤ 1 ∧
  (language_in_query op = true → query op !! "lang" = PStr <$> query_language op).
Proof.
  repeat split.
  - intros p v Hin.
    exact (proj1 (Forall_forall _ _) (header_lookup op) (p, v) Hin).
  - intros op' p Hp. by destruct p.
  - destruct op; cbn; auto.
  - by apply language_in_query_no_header.
  - by apply language_in_query_no_header.
  - apply sent_by_perform.
  - rewrite sent_by_perform. destruct (client_closed w); cbn; lia.
  - apply query_language_lookup.
Qed.

Lemma header_parameters_witness :
  (language_param, Some "nl") ∈ header_args disruptions_nl ∧
  @headers demo_external disruptions_nl !! "Accept-Language" = Some "nl".
Proof.
  assert ((language_param, Some "nl") ∈ header_args disruptions_nl) as Hin
    by (cbn; repeat constructor).
  split; [exact Hin|].
  destruct (@header_parameters demo_external disruptions_nl fresh_world) as (Hsent & _).
  exact (Hsent language_param (Some "nl") Hin).
Defined.

(** The unrestricted statement of C8 does not hold: the language goes
    out as [Accept-Language] from [disruptions.list] and as [lang] from
    [get_trip]. *)
Lemma header_parameters_counterexample :
  @headers demo_external disruptions_nl !! "Accept-Language" = Some "nl" ∧
  @headers demo_external disruptions_nl !! "lang" = None ∧
  @headers demo_external trip_nl !! "lang" = Some "nl" ∧
  @headers demo_external trip_nl !! "Accept-Language" = None.
Proof. repeat split; vm_compute; reflexivity. Qed.

(** ** Deprecated parameters and methods *)

Section deprecation.
Context `{External}.

Lemma deprecated_args_in_query op name k v text :
  (name, k, v, text) ∈ deprecated_args op → (k, v) ∈ optional_query_args op.
Proof.
  destruct op; cbn [deprecated_args optional_query_args]; intros Hin;
    try by apply elem_of_nil in Hin.
  all: repeat (apply elem_of_cons in Hin as [[= -> -> -> ->]|Hin];
               [repeat constructor|]).
  all: by apply elem_of_nil in Hin.
Qed.

Lemma deprecation_notices_length op :
  length (deprecation_notices op) =
    length (supplied_deprecated_args op) +
    (if deprecated_method op is Some _ then 1 else 0).
Proof.
  unfold deprecation_notices. rewrite length_app, length_fmap.
  by destruct (deprecated_method op).
Qed.

Lemma deprecation_notices_one_each op :
  Forall2 (λ notice a, notice = Warning a.2 DeprecationWarning 2)
    (take (length (supplied_deprecated_args op)) (deprecation_notices op))
    (supplied_deprecated_args op).
Proof.
  unfold deprecation_notices.
  rewrite take_app_length' by by rewrite length_fmap.
  apply Forall2_fmap_l, Forall_Forall2_diag, Forall_true. done.
Qed.

End deprecation.

(** C5. For every call, exactly one deprecation warning is emitted for
    each deprecated parameter given ([departure], [shorter_change],
    [minimal_change_time], [origin_accessible],
    [travel_assistance_transfer_time] of [plan_trip], [source_ctx_recon]
    of [get_trip]) and one for a deprecated method, so [n] deprecated
    parameters in one call give [n] warnings; the request is still made,
    with each deprecated parameter's value under its key as given; and
    the call returns or raises exactly what it does without the
    deprecation, the warnings being the only difference. *)
Theorem deprecation_notices_emitted `{External} (op : operation) (w : world) :
  emitted_by (perform op) w = deprecation_notices op ∧
  length (deprecation_notices op) =
    length (supplied_deprecated_args op) +
    (if deprecated_method op is Some _ then 1 else 0) ∧
  Forall2 (λ notice a, notice = Warning a.2 DeprecationWarning 2)
    (take (length (supplied_deprecated_args op)) (deprecation_notices op))
    (supplied_deprecated_args op) ∧
  (∀ name k v text, (name, k, v, text) ∈ supplied_deprecated_args op →
                    query op !! k = Some v) ∧
  (client_closed w = false → sent_by (perform op) w = [request_of op]) ∧
  perform op w =
    ((plain_call op w).1, log_warnings (deprecation_notices op) (plain_call op w).2) ∧
  emitted_by (plain_call op) w = [] ∧
  (∀ m c l, ∃ w', warnings_warn m c l w = (Returned (), w')).
Proof.
  repeat split.
  - apply emitted_by_perform.
  - apply deprecation_notices_length.
  - apply deprecation_notices_one_each.
  - intros name k v text Hin. unfold supplied_deprecated_args in Hin.
    apply list_elem_of_filter in Hin as [Hv Hin]. cbn in Hv.
    rewrite (optional_query_elem _ _ _ (deprecated_args_in_query _ _ _ _ _ Hin)).
    unfold stored. by destruct (is_not_None v).
  - intros Hopen. by rewrite sent_by_perform, Hopen.
  - apply perform_run.
  - unfold emitted_by. by rewrite plain_call_emitted, drop_all.
  - intros m c l. eexists. reflexivity.
Qed.

Lemma deprecation_notices_emitted_witness :
  client_closed fresh_world = false ∧
  length (emitted_by (@perform demo_external trip_two_deprecated) fresh_world) = 2 ∧
  @query demo_external trip_two_deprecated !! "departure" = Some (PBool true) ∧
  @query demo_external trip_two_deprecated !! "minimalChangeTime" = Some (PInt 3) ∧
  sent_by (@perform demo_external trip_two_deprecated) fresh_world =
    [@request_of demo_external trip_two_deprecated].
Proof.
  destruct (@deprecation_notices_emitted demo_external trip_two_deprecated fresh_world)
    as (Hemit & Hlen & _ & Hquery & Hsent & _).
  split; [reflexivity|]. split; [by rewrite Hemit, Hlen|].
  split; [|split].
  - apply (Hquery "departure" "departure" (PBool true)
             "The 'departure' parameter is deprecated. Use 'search_for_arrival' instead.").
    cbn. repeat constructor.
  - eapply (Hquery "minimal_change_time" "minimalChangeTime" (PInt 3)).
    cbn. repeat constructor.
  - apply Hsent. reflexivity.
Defined.

(** ** The disruption dispatcher *)

Section dispatch.
Context `{External}.
Import DisruptionsAPI.

Lemma eq_str_true v s : eq_str v s = true ↔ v = PStr s.
Proof.
  destruct v; cbn; try (split; [discriminate | intros [=]]).
  rewrite String.eqb_eq. split; [by intros -> | by intros [= ->]].
Qed.

Lemma _parse_item_calamity d :
  d !! "type" = Some (PStr "CALAMITY") →
  _parse_item (PDict d) = validate Calamity (PDict d).
Proof. intros Ht. unfold _parse_item, item_get. cbn. by rewrite Ht. Qed.

Lemma _parse_item_disruption d :
  d !! "type" ≠ Some (PStr "CALAMITY") →
  _parse_item (PDict d) = validate Disruption (PDict d).
Proof.
  intros Ht. unfold _parse_item, item_get. cbn.
  destruct (eq_str (default PNone (d !! "type")) "CALAMITY") eqn:Heq; [|done].
  apply eq_str_true in Heq. destruct (d !! "type") as [v|]; [|discriminate].
  cbn in Heq. by subst.
Qed.

(** A comprehension succeeds exactly when every element does, and its
    result lists the elements' results in the order of the input. *)
Lemma comprehension_Forall2 {A B} (f : A → result B) items results :
  comprehension f items = Returned results ↔
  Forall2 (λ item r, f item = Returned r) items results.
Proof.
  revert results. induction items as [|item rest IH]; intros results; cbn.
  - split; [intros [= <-]; constructor | by inversion 1].
  - split.
    + destruct (f item) as [y|e] eqn:Hy; cbn; [|discriminate].
      destruct (comprehension f rest) as [ys|e] eqn:Hys; cbn; [|discriminate].
      intros [= <-]. constructor; [done | by apply IH].
    + inversion 1 as [|? r ? rs Hr Hrs]; subst. rewrite Hr. cbn.
      apply IH in Hrs. by rewrite Hrs.
Qed.

Lemma bind_lift_fst {A B} (m : M A) (f : A → result B) w :
  ((m ≫= λ a, lift (f a)) w).1 = (m w).1 ≫= f.
Proof. unfold mbind at 1, M_bind, lift. by destruct (m w) as [[]]. Qed.

End dispatch.

(** C4. A raw item whose [type] entry equals ["CALAMITY"] is validated
    as a [Calamity], every other item as a [Disruption]; the choice is
    made from the discriminator alone, before and whatever the two
    validations would say. On a list every element is dispatched on its
    own and the results stand in the order of the input: a disruption
    followed by a calamity gives a [Disruption] followed by a
    [Calamity]. *)
Theorem disruption_dispatch `{External} :
  (∀ d, d !! "type" = Some (PStr "CALAMITY") →
        DisruptionsAPI._parse_item (PDict d) = validate Calamity (PDict d)) ∧
  (∀ d, d !! "type" ≠ Some (PStr "CALAMITY") →
        DisruptionsAPI._parse_item (PDict d) = validate Disruption (PDict d)) ∧
  (∀ d, d !! "type" = Some (PStr "CALAMITY") →
        model_validate Calamity (PDict d) = None →
        DisruptionsAPI._parse_item (PDict d) = Raised (ValidationError Calamity)) ∧
  (∀ d, d !! "type" ≠ Some (PStr "CALAMITY") →
        model_validate Disruption (PDict d) = None →
        DisruptionsAPI._parse_item (PDict d) = Raised (ValidationError Disruption)) ∧
  (∀ items,
     DisruptionsAPI.parse_items (PList items) =
       PList <$> comprehension DisruptionsAPI._parse_item items) ∧
  (∀ items results,
     DisruptionsAPI.parse_items (PList items) = Returned (PList results) ↔
     Forall2 (λ item r, DisruptionsAPI._parse_item item = Returned r) items results) ∧
  (∀ d1 d2 a1 a2,
     d1 !! "type" ≠ Some (PStr "CALAMITY") →
     d2 !! "type" = Some (PStr "CALAMITY") →
     model_validate Disruption (PDict d1) = Some a1 →
     model_validate Calamity (PDict d2) = Some a2 →
     DisruptionsAPI.parse_items (PList [PDict d1; PDict d2]) =
       Returned (PList [PObj Disruption a1; PObj Calamity a2])) ∧
  (∀ is_active disruption_type language w,
     (DisruptionsAPI.list is_active disruption_type language w).1 =
       (HttpTransport.get (DisruptionsAPI._BASE_URL +:+ "/v3")
          (Some (DisruptionsAPI.list_params is_active disruption_type))
          (DisruptionsAPI.list_headers language) w).1
       ≫= DisruptionsAPI.parse_items).
Proof.
  repeat split.
  - apply _parse_item_calamity.
  - apply _parse_item_disruption.
  - intros d Ht Hv. rewrite (_parse_item_calamity _ Ht). unfold validate. by rewrite Hv.
  - intros d Ht Hv. rewrite (_parse_item_disruption _ Ht). unfold validate. by rewrite Hv.
  - unfold DisruptionsAPI.parse_items. cbn.
    destruct (comprehension _ items) as [ys|e] eqn:Hys; cbn; [|discriminate].
    intros [= <-]. by apply comprehension_Forall2.
  - intros Hall. apply comprehension_Forall2 in Hall.
    unfold DisruptionsAPI.parse_items. cbn. by rewrite Hall.
  - intros d1 d2 a1 a2 Ht1 Ht2 Hv1 Hv2. unfold DisruptionsAPI.parse_items.
    cbn [iter mbind result_bind comprehension].
    rewrite (_parse_item_disruption _ Ht1), (_parse_item_calamity _ Ht2).
    unfold validate. by rewrite Hv1, Hv2.
  - intros a t l w. unfold DisruptionsAPI.list. apply bind_lift_fst.
Qed.

Lemma disruption_dispatch_witness :
  raw_disruption !! "type" ≠ Some (PStr "CALAMITY") ∧
  raw_calamity !! "type" = Some (PStr "CALAMITY") ∧
  @DisruptionsAPI.parse_items demo_external
     (PList [PDict raw_disruption; PDict raw_calamity]) =
    Returned (PList [PObj Disruption raw_disruption; PObj Calamity raw_calamity]).
Proof.
  assert (raw_disruption !! "type" ≠ Some (PStr "CALAMITY")) as Hd
    by (vm_compute; congruence).
  assert (raw_calamity !! "type" = Some (PStr "CALAMITY")) as Hc by reflexivity.
  split; [exact Hd|]. split; [exact Hc|].
  destruct (@disruption_dispatch demo_external) as (_ & _ & _ & _ & _ & _ & Hpair & _).
  apply Hpair; [exact Hd | exact Hc | reflexivity | reflexivity].
Defined.

(** ** Scoped use of the client and of the transport *)

Section scoped.
Context `{External}.

Lemma close_run w :
  HttpTransport.close w =
    (Returned (),
     World (client_headers w) (client_timeout w) true (S (close_calls w))
           (sent w) (emitted w)).
Proof. reflexivity. Qed.

Lemma with_close_world {A} (exit : list exit_arg → M pval) (body : unit → M A) w :
  (∀ args w', exit args w' = (Returned PNone, (HttpTransport.close w').2)) →
  with_ (T:=unit) (mret ()) exit body w =
    (match (body () w).1 with
     | Returned a => Returned (Some a)
     | Raised e => Raised e
     end,
     (HttpTransport.close (body () w).2).2).
Proof.
  intros Hexit. unfold with_. cbn.
  destruct (body () w) as [[a|e] w2]; rewrite Hexit; reflexivity.
Qed.

End scoped.

(** C9. Under scoped use ([with]) of the client or of the transport,
    [close] is called on the connection pool on every way out of the
    body: when the body returns and when it raises, and whatever the
    arguments [__exit__] is given. The exception of the body, if any,
    is raised again after the pool was closed. *)
Theorem scoped_close {A} (body : unit → M A) (w : world) (args : list exit_arg) :
  HttpTransport.__exit__ args w = (Returned PNone, (HttpTransport.close w).2) ∧
  NSClient.__exit__ args w = (Returned PNone, (NSClient.close w).2) ∧
  NSClient.close w = HttpTransport.close w ∧
  client_closed (HttpTransport.close w).2 = true ∧
  close_calls (HttpTransport.close w).2 = S (close_calls w) ∧
  (with_ HttpTransport.__enter__ HttpTransport.__exit__ body w).2 =
    (HttpTransport.close (body () w).2).2 ∧
  (with_ NSClient.__enter__ NSClient.__exit__ body w).2 =
    (NSClient.close (body () w).2).2 ∧
  client_closed (with_ NSClient.__enter__ NSClient.__exit__ body w).2 = true ∧
  close_calls (with_ NSClient.__enter__ NSClient.__exit__ body w).2 =
    S (close_calls (body () w).2) ∧
  (with_ NSClient.__enter__ NSClient.__exit__ body w).1 =
    match (body () w).1 with
    | Returned a => Returned (Some a)
    | Raised e => Raised e
    end.
Proof.
  assert (with_ HttpTransport.__enter__ HttpTransport.__exit__ body w =
          (match (body () w).1 with
           | Returned a => Returned (Some a)
           | Raised e => Raised e
           end, (HttpTransport.close (body () w).2).2)) as Htransport
    by (by apply with_close_world).
  assert (with_ NSClient.__enter__ NSClient.__exit__ body w =
          (match (body () w).1 with
           | Returned a => Returned (Some a)
           | Raised e => Raised e
           end, (HttpTransport.close (body () w).2).2)) as Hclient
    by (by apply with_close_world).
  rewrite Htransport, Hclient. repeat split.
Qed.

(** ** The test suite's cases, run on the model *)

(** tests/test_transport.py: a 5xx with a text body raises [ServerError]
    with that text. *)
Example test_error_message_falls_back_to_response_text :
  HttpTransport._handle_response server_error_Y =
    Raised (Api ServerError (PStr "Y") 500).
Proof. reflexivity. Qed.

(** A 200 with an empty JSON object returns the empty object, not the
    "no content" marker. *)
Example test_get_returns_parsed_json :
  HttpTransport._handle_response ok_empty_object = Returned (PDict ∅).
Proof. reflexivity. Qed.

(** tests/test_disruptions.py: without a language no headers are passed. *)
Example test_list_without_language_omits_header :
  req_headers (@request_of demo_external (disruptions_list None None None)) = None.
Proof. reflexivity. Qed.

(** tests/test_disruptions.py: a mixed answer comes back as a
    [Disruption] followed by a [Calamity]. *)
Example test_list_returns_mixed_models :
  (@perform mixed_external (disruptions_list None None None) fresh_world).1 =
    Returned (PList [PObj Disruption raw_disruption; PObj Calamity raw_calamity]).
Proof. vm_compute. reflexivity. Qed.

(** tests/test_travel.py: [search_for_arrival=True] is sent, the default
    is not. *)
Example test_plan_trip_sends_search_for_arrival :
  @query demo_external trip_arrival_True !! "searchForArrival" = Some (PBool true) ∧
  @query demo_external trip_change_time_0 !! "searchForArrival" = None.
Proof. split; vm_compute; reflexivity. Qed.

(** tests/test_travel.py: one deprecated parameter, one warning, and the
    call still returns. *)
Example test_get_trip_deprecated_source_ctx_recon_warns :
  let call :=
    @perform demo_external
      (travel_get_trip "arnu|test" None None None None None None None None (Some true)) in
  length (emitted_by call fresh_world) = 1 ∧
  length (sent_by call fresh_world) = 1 ∧
  (call fresh_world).1 = Raised (ValidationError Trip).
Proof. repeat split; vm_compute; reflexivity. Qed.

(** tests/test_transport.py: after the [with] block the client is
    closed, and a later call raises. *)
Example test_context_manager_closes_transport :
  let after :=
    (with_ HttpTransport.__enter__ HttpTransport.__exit__
       (λ _, @HttpTransport.get demo_external "https://example.com/api/test" None None)
       fresh_world).2 in
  client_closed after = true ∧
  close_calls after = 1 ∧
  (@HttpTransport.get demo_external "https://example.com/api/test" None None after).1 =
    Raised RuntimeError.
Proof. repeat split; vm_compute; reflexivity. Qed.

(** * Further properties of the code *)

(** ** Outcomes of a call *)

Section outcomes.
Context `{External}.

(** The outcome of an operation is the transport's, seen through the
    operation's post-processing. *)
Lemma perform_outcome op w :
  (perform op w).1 =
    if client_closed w then Raised RuntimeError
    else HttpTransport._handle_response (network (sent w) (request_of op))
           ≫= post_process op.
Proof. rewrite perform_run, plain_call_run. by destruct (client_closed w). Qed.

(** The state an operation leaves behind. *)
Lemma perform_world op w :
  (perform op w).2 =
    log_warnings (deprecation_notices op)
      (if client_closed w then w else log_request (request_of op) w).
Proof. rewrite perform_run, plain_call_run. by destruct (client_closed w). Qed.

Lemma perform_client_closed op w :
  client_closed (perform op w).2 = client_closed w.
Proof. rewrite perform_world. by destruct (client_closed w) eqn:Hc. Qed.

Lemma success_outcome op w v :
  client_closed w = false →
  is_success (network (sent w) (request_of op)) = true →
  content (network (sent w) (request_of op)) ≠ "" →
  decoded (network (sent w) (request_of op)) = Some v →
  (perform op w).1 = post_process op v.
Proof.
  intros Hopen Hok Hbody Hv. rewrite perform_outcome, Hopen.
  rewrite (_handle_response_success _ Hok). unfold Response_json. rewrite Hv.
  by destruct (content _).
Qed.

End outcomes.

(** X1. When the server answers an operation with a status that is not
    a success, the operation raises the transport's API error (class by
    status, extracted message, status code); no endpoint module catches
    it, and exactly the one request was sent. *)
Theorem api_error_propagates `{External} (op : operation) (w : world) :
  let response := network (sent w) (request_of op) in
  client_closed w = false →
  is_success response = false →
  (perform op w).1 =
    Raised (Api (raised_class (status_code response)) (extracted_message response)
                (status_code response)) ∧
  sent_by (perform op) w = [request_of op].
Proof.
  intros response Hopen Hfail. split.
  - rewrite perform_outcome, Hopen. fold response.
    by rewrite (_handle_response_failure _ Hfail).
  - by rewrite sent_by_perform, Hopen.
Qed.

Lemma api_error_propagates_witness :
  client_closed fresh_world = false ∧
  is_success unauthorized = false ∧
  (@perform unauthorized_external station_8400058 fresh_world).1 =
    Raised (Api AuthenticationError (PStr "{}") 401).
Proof.
  split; [reflexivity|]. split; [reflexivity|].
  exact (proj1 (@api_error_propagates unauthorized_external station_8400058
                  fresh_world eq_refl eq_refl)).
Defined.

(** X2. On a client that was closed, every operation raises
    [RuntimeError] and sends nothing; the deprecation warnings of the
    call are emitted all the same, since they come first. *)
Theorem closed_client_raises `{External} (op : operation) (w : world) :
  client_closed w = true →
  (perform op w).1 = Raised RuntimeError ∧
  sent (perform op w).2 = sent w ∧
  emitted_by (perform op) w = deprecation_notices op.
Proof.
  intros Hclosed. repeat split.
  - by rewrite perform_outcome, Hclosed.
  - by rewrite perform_sent, Hclosed, app_nil_r.
  - apply emitted_by_perform.
Qed.

Lemma closed_client_raises_witness :
  client_closed closed_world = true ∧
  (@perform demo_external trip_two_deprecated closed_world).1 = Raised RuntimeError ∧
  length (emitted_by (@perform demo_external trip_two_deprecated) closed_world) = 2.
Proof.
  split; [reflexivity|].
  destruct (@closed_client_raises demo_external trip_two_deprecated closed_world eq_refl)
    as (Hraise & _ & Hwarn).
  split; [exact Hraise|]. by rewrite Hwarn.
Defined.

(** X3. A successful response whose body is not empty and does not
    decode makes every operation raise the decoder's error: on this
    path [json()] is called outside any [try]. *)
Theorem undecodable_success_raises `{External} (op : operation) (w : world) :
  let response := network (sent w) (request_of op) in
  client_closed w = false →
  is_success response = true →
  content response ≠ "" →
  decoded response = None →
  (perform op w).1 = Raised JSONDecodeError.
Proof.
  intros response Hopen Hok Hbody Hjson.
  rewrite perform_outcome, Hopen. fold response.
  rewrite (_handle_response_success _ Hok). unfold Response_json. rewrite Hjson.
  by destruct (content response).
Qed.

Lemma undecodable_success_raises_witness :
  client_closed fresh_world = false ∧
  is_success html_page = true ∧ content html_page ≠ "" ∧ decoded html_page = None ∧
  (@perform html_external station_8400058 fresh_world).1 = Raised JSONDecodeError.
Proof.
  assert (content html_page ≠ "") as Hbody by discriminate.
  split; [reflexivity|]. split; [reflexivity|]. split; [exact Hbody|].
  split; [reflexivity|].
  exact (@undecodable_success_raises html_external station_8400058 fresh_world
           eq_refl eq_refl Hbody eq_refl).
Defined.

(** X4. On a successful response without body the transport returns
    [None], and the modules differ in what they make of it: the
    operations that iterate over the data ([list], [list_for_station],
    [list_personal]) raise [TypeError], [DisruptionsAPI.get] raises
    [AttributeError], [sync_saved_trips] and the deprecated operations
    that pass the data on return [None]. *)
Theorem no_content_outcomes `{External} (op : operation) (w : world) :
  let response := network (sent w) (request_of op) in
  client_closed w = false →
  is_success response = true →
  content response = "" →
  (iterates_data op = true → (perform op w).1 = Raised TypeError) ∧
  (∀ t i l, op = disruptions_get t i l → (perform op w).1 = Raised AttributeError) ∧
  (∀ k t, op = disruptions_sync_saved_trips k t → (perform op w).1 = Returned PNone) ∧
  (returns_raw_data op = true → (perform op w).1 = Returned PNone).
Proof.
  intros response Hopen Hok Hbody.
  rewrite perform_outcome, Hopen. fold response.
  rewrite (_handle_response_success _ Hok), Hbody.
  repeat split.
  - by destruct op.
  - by intros t i l ->.
  - by intros k t ->.
  - by destruct op.
Qed.

Lemma no_content_outcomes_witness :
  client_closed fresh_world = false ∧
  is_success no_content = true ∧ content no_content = "" ∧
  iterates_data personal_push_1 = true ∧
  (@perform no_content_external personal_push_1 fresh_world).1 = Raised TypeError.
Proof.
  split; [reflexivity|]. split; [reflexivity|]. split; [reflexivity|].
  split; [reflexivity|].
  exact (proj1 (@no_content_outcomes no_content_external personal_push_1 fresh_world
                  eq_refl eq_refl eq_refl) eq_refl).
Defined.

(** X5. The deprecated [list_disruptions], [list_station_disruptions]
    and [get_disruption] return what the transport returns, unvalidated:
    any decoded body of a successful response comes back as it is,
    whatever the models would say of it. *)
Theorem raw_data_passthrough `{External} (op : operation) (w : world) :
  returns_raw_data op = true →
  (perform op w).1 =
    (if client_closed w then Raised RuntimeError
     else HttpTransport._handle_response (network (sent w) (request_of op))) ∧
  (∀ v, client_closed w = false →
        is_success (network (sent w) (request_of op)) = true →
        content (network (sent w) (request_of op)) ≠ "" →
        decoded (network (sent w) (request_of op)) = Some v →
        (perform op w).1 = Returned v).
Proof.
  intros Hraw. split.
  - rewrite perform_outcome. destruct (client_closed w); [done|].
    destruct op; try discriminate; cbn [post_process];
      by destruct (HttpTransport._handle_response _).
  - intros v Hopen Hok Hbody Hv. rewrite (success_outcome _ _ v) by done.
    by destruct op.
Qed.

Lemma raw_data_passthrough_witness :
  returns_raw_data station_disruptions_ASD = true ∧
  (@perform mixed_external station_disruptions_ASD fresh_world).1 =
    Returned (PList [PDict raw_disruption; PDict raw_calamity]).
Proof.
  split; [reflexivity|].
  destruct (@raw_data_passthrough mixed_external station_disruptions_ASD fresh_world
              eq_refl) as (_ & Hback).
  apply Hback; try reflexivity. discriminate.
Defined.

(** X6. When the body of a successful response does not validate
    against the operation's response model, the operation raises the
    validation error of that model; it substitutes nothing. *)
Theorem validation_error_propagates `{External} (op : operation) (w : world)
    (cls : model_class) (v : pval) :
  response_model op = Some cls →
  client_closed w = false →
  is_success (network (sent w) (request_of op)) = true →
  content (network (sent w) (request_of op)) ≠ "" →
  decoded (network (sent w) (request_of op)) = Some v →
  model_validate cls v = None →
  (perform op w).1 = Raised (ValidationError cls).
Proof.
  intros Hcls Hopen Hok Hbody Hv Hinvalid.
  rewrite (success_outcome _ _ v) by done.
  destruct op; try discriminate; injection Hcls as <-;
    cbn [post_process]; unfold validate; by rewrite Hinvalid.
Qed.

Lemma validation_error_propagates_witness :
  response_model station_8400058 = Some StationV3Response ∧
  (@perform ok_object_external station_8400058 fresh_world).1 =
    Raised (ValidationError StationV3Response).
Proof.
  split; [reflexivity|].
  apply (@validation_error_propagates ok_object_external station_8400058 fresh_world
           StationV3Response (PDict ∅)); try reflexivity. discriminate.
Defined.

(** ** The dispatcher on lists and on odd input *)

Section dispatch_edges.
Context `{External}.

Lemma comprehension_fail_fast {A B} (f : A → result B) before bad after ys e :
  Forall2 (λ item r, f item = Returned r) before ys →
  f bad = Raised e →
  comprehension f (before ++ bad :: after) = Raised e.
Proof.
  intros Hbefore Hbad. induction Hbefore as [|item y rest ys' Hy _ IH]; cbn.
  - by rewrite Hbad.
  - by rewrite Hy, IH.
Qed.


End dispatch_edges.

(** X7. Parsing a list of raw items fails fast: when the items before
    some item parse and that item fails, the whole list fails with that
    item's error, whatever comes after it; and when the list parses, the
    result has one element per item. *)
Theorem list_parsing_fails_fast `{External} (before after : list pval) (bad : pval)
    (parsed : list pval) (e : exn) :
  Forall2 (λ item r, DisruptionsAPI._parse_item item = Returned r) before parsed →
  DisruptionsAPI._parse_item bad = Raised e →
  DisruptionsAPI.parse_items (PList (before ++ bad :: after)) = Raised e ∧
  DisruptionsAPI.parse_items (PList before) = Returned (PList parsed) ∧
  length parsed = length before.
Proof.
  intros Hbefore Hbad. repeat split.
  - unfold DisruptionsAPI.parse_items. cbn [iter mbind result_bind].
    by rewrite (comprehension_fail_fast _ _ _ _ _ _ Hbefore Hbad).
  - unfold DisruptionsAPI.parse_items. cbn [iter mbind result_bind].
    apply comprehension_Forall2 in Hbefore. by rewrite Hbefore.
  - symmetry. by eapply Forall2_length.
Qed.

Lemma list_parsing_fails_fast_witness :
  @DisruptionsAPI.parse_items demo_external
     (PList ([PDict raw_disruption] ++ PInt 3 :: [PDict raw_calamity])) =
    Raised AttributeError.
Proof.
  refine (proj1 (@list_parsing_fails_fast demo_external [PDict raw_disruption]
                   [PDict raw_calamity] (PInt 3) [PObj Disruption raw_disruption]
                   AttributeError _ _)).
  - repeat constructor.
  - reflexivity.
Defined.



(** ** A request holds the arguments and nothing else *)

Ltac pick_entry :=
  repeat match goal with
    | Hk : <[_ := _]> _ !! _ = Some _ |- _ =>
        apply lookup_insert_Some in Hk as [[<- <-]|[_ Hk]]
    | Hk : {[_ := _]} !! _ = Some _ |- _ =>
        apply lookup_singleton_Some in Hk as [<- <-]
    | Hk : ∅ !! _ = Some _ |- _ => by rewrite lookup_empty in Hk
    end.

Section exact_requests.
Context `{External}.

Lemma set_all_elem offers : ∀ params k v,
  set_all params offers !! k = Some v →
  params !! k = Some v ∨ ((k, v) ∈ offers ∧ v ≠ PNone).
Proof.
  induction offers as [|[k' v'] rest IH]; intros params k v; [by left|].
  cbn [set_all foldl fst snd]. change (foldl _ ?p rest) with (set_all p rest).
  intros Hk. apply IH in Hk as [Hk|[Hk ?]]; [|right; split; [by constructor|done]].
  rewrite lookup__set in Hk.
  destruct (String.eqb_spec k k') as [->|Hne]; [|by left].
  unfold stored in Hk. destruct (is_not_None v') eqn:Hv; cbn in Hk; [|by left].
  injection Hk as ->. right. split; [constructor|]. by intros ->.
Qed.

Ltac from_offers Hoffers :=
  intros k v;
  cbn [request_of req_params default from_option id];
  rewrite Hoffers; intros Hk;
  apply set_all_elem in Hk as [Hk|[Hk _]];
  [ repeat match goal with
      | _ : context [default _ ?x] |- _ => is_var x; destruct x
      end;
    pick_entry; cbn; solve [repeat constructor]
  | rewrite !elem_of_app; right; right; left; exact Hk ].

(** Nothing is in the query but the operation's arguments. *)
Lemma query_only_args op k v :
  query op !! k = Some v → (k, v) ∈ query_args op.
Proof.
  unfold query, query_args. revert k v. destruct op.
  14: { intros k v;
        cbn [request_of req_params default from_option id];
        rewrite plan_trip_params_offers; intros Hk.
        apply set_all_elem in Hk as [Hk|[Hk Hv]]; [by rewrite lookup_empty in Hk|].
        cbn [required_query_args defaulted_query_values defaulted_query_args
             truth_gated_query_args fmap list_fmap app].
        rewrite !elem_of_app in Hk. rewrite elem_of_app.
        destruct Hk as [Hk|[Hk|Hk]].
        - left. by eapply subseteq_take.
        - right. apply list_elem_of_singleton in Hk as [= -> ->].
          unfold py_or in *.
          destruct (default false (TravelAPI.search_for_arrival kw)); cbn in *;
            [constructor | done].
        - left. by eapply subseteq_drop. }
  14: from_offers (get_trip_params_offers ctx_recon date travel_request_type product
                     discount travel_class authorization language nsr source_ctx_recon).
  14: from_offers (get_booked_trip_params_offers ctx_recon booking_number
                     original_trip_request_id authorization accessibility_equipment1
                     accessibility_equipment2 language).
  14: from_offers (get_price_params_offers from_station to_station travel_class
                     travel_type is_joint_journey adults children route_id
                     planned_departure_time planned_arrival_time).
  14: from_offers (get_price_v2_params_offers from_station to_station travel_class
                     travel_type is_joint_journey adults children route_id
                     planned_from_time planned_arrival_time).
  all: intros k v;
       cbn [request_of req_params default from_option id]; intros Hk.
  all: try by rewrite lookup_empty in Hk.
  all: try destruct station.
  all: split_args.
  all: cbv beta iota zeta delta
         [DisruptionsAPI.list_params StationsAPI.list_v2_params
          StationsAPI.list_nearest_v2_params StationsAPI.list_v3_params
          StationsAPI.list_nearest_v3_params StationsAPI.get_params
          TravelAPI.get_departures_params TravelAPI.get_arrivals_params
          TravelAPI.get_journey_params TravelAPI.get_stations_params
          TravelAPI.get_nearest_stations_params TravelAPI.get_calamities_params
          TravelAPI.list_disruptions_params TravelAPI._set of_opt is_not_None
          truth string_truth from_option id] in Hk.
  all: pick_entry; cbn; solve [repeat constructor].
Qed.

(** Nothing is in the headers but the header-bearing arguments. *)
Lemma headers_only_args op name v :
  headers op !! name = Some v →
  ∃ p, (p, Some v) ∈ header_args op ∧ name = header_name op p.
Proof.
  unfold headers.
  destruct op; cbn [request_of req_headers header_args]; intros Hk;
    try by rewrite lookup_empty in Hk.
  all: try (unfold TravelAPI.plan_trip_headers in Hk;
            destruct (TravelAPI.authorization kw)).
  all: repeat match goal with x : option string |- _ => destruct x end.
  all: cbv beta iota zeta delta
         [DisruptionsAPI.list_headers DisruptionsAPI.get_headers
          DisruptionsAPI.list_for_station_headers TravelAPI.get_trip_headers
          TravelAPI.get_booked_trip_headers TravelAPI.list_disruptions_headers
          from_option id truth option_truth] in Hk.
  all: try (change (dict_truth ({[ "Authorization" := ?a ]} : hdict)) with true in Hk;
            cbv beta iota in Hk).
  all: pick_entry.
  all: try (by rewrite lookup_empty in Hk).
  all: first [ exists language_param; split; [solve [repeat constructor] | reflexivity]
             | exists authorization_param; split; [solve [repeat constructor] | reflexivity]
             | exists push_id_param; split; [solve [repeat constructor] | reflexivity]
             | exists api_key_param; split; [solve [repeat constructor] | reflexivity] ].
Qed.

Lemma header_name_known op p : header_name op p ∈ header_names.
Proof. destruct p; try (cbn; solve [repeat constructor]). destruct op; cbn; repeat constructor. Qed.

End exact_requests.

(** X9. The query of an operation holds nothing but its arguments:
    every key and value in it is a positional argument, a defaulted
    parameter with its value or default, an optional parameter as
    given, or an argument that passed its truth test. *)
Theorem query_holds_only_arguments `{External} (op : operation) (k : string) (v : pval) :
  query op !! k = Some v →
  (k, v) ∈ required_query_args op ∨
  (k, v) ∈ defaulted_query_values op ∨
  (k, v) ∈ optional_query_args op ∨
  (k, v) ∈ truth_gated_query_args op.
Proof.
  intros Hk. apply query_only_args in Hk. unfold query_args in Hk.
  rewrite !elem_of_app in Hk. tauto.
Qed.

Lemma query_holds_only_arguments_witness :
  @query demo_external journey_6952 !! "train" = Some (PInt 6952) ∧
  ("train", PInt 6952) ∈ optional_query_args journey_6952.
Proof.
  assert (@query demo_external journey_6952 !! "train" = Some (PInt 6952)) as Hk
    by reflexivity.
  split; [exact Hk|].
  destruct (@query_holds_only_arguments demo_external journey_6952 "train"
              (PInt 6952) Hk) as [Hin|[Hin|[Hin|Hin]]].
  - by apply elem_of_nil in Hin.
  - apply list_elem_of_singleton in Hin. discriminate.
  - exact Hin.
  - by apply elem_of_nil in Hin.
Defined.

(** X10. An argument the signature requires ([lat], [lng], [uic_code],
    [ctx_recon], [booking_number], [original_trip_request_id]) is always
    in the query, under its key with the value given, whatever else the
    call passes. *)
Theorem required_arguments_sent `{External} (op : operation) (k : string) (v : pval) :
  (k, v) ∈ required_query_args op → query op !! k = Some v.
Proof.
  intros Hin.
  exact (proj1 (Forall_forall _ _) (required_query_lookup op) (k, v) Hin).
Qed.

Lemma required_arguments_sent_witness :
  ("uicCode", PStr "8400058") ∈ @required_query_args station_8400058 ∧
  @query demo_external station_8400058 !! "uicCode" = Some (PStr "8400058").
Proof.
  assert (("uicCode", PStr "8400058") ∈ @required_query_args station_8400058) as Hin
    by (cbn; repeat constructor).
  split; [exact Hin|].
  exact (@required_arguments_sent demo_external station_8400058 _ _ Hin).
Defined.

(** X11. The station of [get_departures] and [get_arrivals] is tested
    with [if station:]: the empty string is left out of the query
    although the argument is required, any other station is sent as
    given. *)
Theorem station_sent_when_not_empty `{External} (station : string)
    (uic_code : option string) (date_time : option datetime)
    (max_journeys : option Z) (language : option string) :
  let departures := travel_get_departures station uic_code date_time max_journeys language in
  let arrivals := travel_get_arrivals station uic_code date_time max_journeys language in
  (station = "" →
   query departures !! "station" = None ∧ query arrivals !! "station" = None) ∧
  (station ≠ "" →
   query departures !! "station" = Some (PStr station) ∧
   query arrivals !! "station" = Some (PStr station)) ∧
  query departures = query arrivals.
Proof.
  intros departures arrivals.
  pose proof (truth_gated_query_lookup departures) as Hd.
  pose proof (truth_gated_query_lookup arrivals) as Ha.
  apply Forall_cons_1 in Hd as [Hd _]. apply Forall_cons_1 in Ha as [Ha _].
  cbn [fst snd] in Hd, Ha.
  split; [|split].
  - intros ->. split; [exact Hd | exact Ha].
  - intros Hs. rewrite Hd, Ha. by destruct station.
  - reflexivity.
Qed.

Lemma station_sent_when_not_empty_witness :
  @query demo_external departures_no_station !! "station" = None.
Proof.
  exact (proj1 (proj1 (@station_sent_when_not_empty demo_external ""
                          (Some "8400058") None None None) eq_refl)).
Defined.

(** X12. The headers an operation passes hold nothing but its
    header-bearing arguments, each under one of the five names the
    modules use; no operation passes the subscription-key header, so a
    call cannot replace the key the client was built with. *)
Theorem headers_hold_only_arguments `{External} (op : operation) :
  (∀ name v, headers op !! name = Some v →
     ∃ p, (p, Some v) ∈ header_args op ∧ name = header_name op p) ∧
  (∀ name v, headers op !! name = Some v → name ∈ header_names) ∧
  headers op !! "Ocp-Apim-Subscription-Key" = None.
Proof.
  assert (∀ name v, headers op !! name = Some v → name ∈ header_names) as Hnames.
  { intros name v Hk. apply headers_only_args in Hk as (p & _ & ->).
    apply header_name_known. }
  repeat split; [apply headers_only_args | exact Hnames |].
  destruct (headers op !! "Ocp-Apim-Subscription-Key") as [v|] eqn:Hk; [|done].
  apply Hnames in Hk. exfalso. revert Hk. unfold header_names.
  rewrite !elem_of_cons, elem_of_nil. intros [?|[?|[?|[?|[?|[]]]]]]; discriminate.
Qed.

Lemma headers_hold_only_arguments_witness :
  @headers demo_external disruptions_nl !! "Accept-Language" = Some "nl" ∧
  "Accept-Language" ∈ header_names.
Proof.
  assert (@headers demo_external disruptions_nl !! "Accept-Language" = Some "nl") as Hk
    by reflexivity.
  split; [exact Hk|].
  destruct (@headers_hold_only_arguments demo_external disruptions_nl) as (_ & Hnames & _).
  exact (Hnames _ _ Hk).
Defined.

(** ** Where requests go, and what a call leaves behind *)

Section places.
Context `{External}.

Lemma request_method_cases op :
  (req_method (request_of op) = POST ∧ req_params (request_of op) = None ∧
   ∃ k t, op = disruptions_sync_saved_trips k t ∧
          req_json (request_of op) = Some (model_dump t)) ∨
  (req_method (request_of op) = GET ∧ req_json (request_of op) = None ∧
   ∀ k t, op ≠ disruptions_sync_saved_trips k t).
Proof. destruct op; try (right; by repeat split). left. repeat split. eauto. Qed.

Lemma request_url_base op :
  String.prefix (base_url (api_of op) +:+ "/") (req_url (request_of op)) = true.
Proof. destruct op; reflexivity. Qed.

End places.

(** X13. Every request an operation sends goes to the base URL of its
    own module ([disruptions], [nsapp-stations], [reisinformatie-api])
    on the gateway. [sync_saved_trips] is the one operation that posts:
    its request carries the dumped model as JSON body and no query;
    every other request is a GET without body. *)
Theorem requests_stay_in_their_api `{External} (op : operation) (w : world)
    (req : request) :
  req ∈ sent_by (perform op) w →
  String.prefix (base_url (api_of op) +:+ "/") (req_url req) = true ∧
  String.prefix "https://gateway.apiportal.ns.nl/" (base_url (api_of op)) = true ∧
  ((req_method req = POST ∧ req_params req = None ∧
    ∃ k t, op = disruptions_sync_saved_trips k t ∧ req_json req = Some (model_dump t)) ∨
   (req_method req = GET ∧ req_json req = None ∧
    ∀ k t, op ≠ disruptions_sync_saved_trips k t)).
Proof.
  rewrite sent_by_perform. destruct (client_closed w); [by intros ?%elem_of_nil|].
  intros ->%list_elem_of_singleton. repeat split.
  - apply request_url_base.
  - by destruct (api_of op).
  - apply request_method_cases.
Qed.

Lemma requests_stay_in_their_api_witness :
  @request_of demo_external personal_push_1 ∈
    sent_by (@perform demo_external personal_push_1) fresh_world ∧
  String.prefix "https://gateway.apiportal.ns.nl/disruptions/"
    (req_url (@request_of demo_external personal_push_1)) = true.
Proof.
  assert (@request_of demo_external personal_push_1 ∈
            sent_by (@perform demo_external personal_push_1) fresh_world) as Hin
    by (vm_compute; constructor).
  split; [exact Hin|].
  exact (proj1 (@requests_stay_in_their_api demo_external personal_push_1 fresh_world
                  _ Hin)).
Defined.

(** X14. An operation never touches the connection: whether the pool is
    closed, how often it was closed and the client's configuration are
    the same after the call as before, whatever the outcome; the logs of
    requests and warnings only grow. *)
Theorem perform_keeps_connection `{External} (op : operation) (w : world) :
  let w' := (perform op w).2 in
  client_closed w' = client_closed w ∧
  close_calls w' = close_calls w ∧
  client_headers w' = client_headers w ∧
  client_timeout w' = client_timeout w ∧
  sent w `prefix_of` sent w' ∧
  emitted w `prefix_of` emitted w'.
Proof.
  cbn zeta. rewrite perform_world.
  destruct (client_closed w) eqn:Hc; cbn; rewrite ?Hc; repeat split;
    try done; by apply prefix_app_r.
Qed.

(** X15. Two operations in a row on an open client send their two
    requests in call order, and the second call's outcome is that of
    its own request: the first call leaves nothing behind that the
    second reads, except what the server has seen. *)
Theorem two_calls_in_order `{External} (op1 op2 : operation) (w : world) :
  client_closed w = false →
  let w1 := (perform op1 w).2 in
  sent (perform op2 w1).2 = sent w ++ [request_of op1; request_of op2] ∧
  (perform op2 w1).1 =
    HttpTransport._handle_response
      (network (sent w ++ [request_of op1]) (request_of op2)) ≫= post_process op2.
Proof.
  intros Hopen w1.
  assert (client_closed w1 = false) as Hopen1
    by (subst w1; by rewrite perform_client_closed).
  assert (sent w1 = sent w ++ [request_of op1]) as Hsent1
    by (subst w1; by rewrite perform_sent, Hopen).
  split.
  - rewrite perform_sent, Hopen1, Hsent1. by rewrite <- app_assoc.
  - by rewrite perform_outcome, Hopen1, Hsent1.
Qed.

Lemma two_calls_in_order_witness :
  client_closed fresh_world = false ∧
  sent (@perform demo_external journey_6952
          (@perform demo_external station_8400058 fresh_world).2).2 =
    [@request_of demo_external station_8400058; @request_of demo_external journey_6952].
Proof.
  split; [reflexivity|].
  exact (proj1 (@two_calls_in_order demo_external station_8400058 journey_6952
                  fresh_world eq_refl)).
Defined.

(** ** The station-code generator: identifiers *)

Ltac each_char c := destruct c as [[] [] [] [] [] [] [] []].

Section identifier_facts.
Import generate_station_codes.
Variable ascii_fold : string → string.

Lemma lower_word_char c :
  is_word c = true → is_identifier_char (lower_char c) = true.
Proof. each_char c; vm_compute; congruence. Qed.

Lemma all_chars_sub_outside cls s :
  cls "_"%char = true → all_chars cls (sub_outside cls s) = true.
Proof.
  intros Hus. induction s as [|c rest IH]; [done|]. cbn.
  rewrite IH. destruct (cls c) eqn:Hc; by rewrite ?Hc, ?Hus.
Qed.

Lemma all_chars_lower s :
  all_chars is_word s = true → all_chars is_identifier_char (lower s) = true.
Proof.
  induction s as [|c rest IH]; [done|]. cbn.
  intros [Hc Hrest]%andb_prop. by rewrite lower_word_char, IH.
Qed.

Lemma all_chars_sub_runs p cls s : ∀ in_run,
  p "_"%char = true → all_chars p s = true →
  all_chars p (sub_runs_from cls in_run s) = true.
Proof.
  induction s as [|c rest IH]; intros in_run Hus; [done|]. cbn.
  intros [Hc Hrest]%andb_prop.
  destruct (cls c), in_run; cbn; rewrite ?Hus, ?Hc, ?IH; done.
Qed.

Lemma has_double_underscore_cons c s :
  has_double_underscore (String c s) =
    Ascii.eqb c "_"%char && starts_with_underscore s || has_double_underscore s.
Proof. destruct s; [by rewrite andb_false_r | reflexivity]. Qed.

(** Collapsing runs of underscores leaves no two in a row. *)
Lemma no_double_sub_runs s : ∀ in_run,
  has_double_underscore (sub_runs_from is_underscore in_run s) = false ∧
  (in_run = true →
   starts_with_underscore (sub_runs_from is_underscore in_run s) = false).
Proof.
  induction s as [|c rest IH]; intros in_run; [done|]. cbn [sub_runs_from].
  destruct (is_underscore c) eqn:Hc.
  - destruct in_run.
    + apply IH.
    + destruct (IH true) as [Hd Hs]. split; [|done].
      rewrite has_double_underscore_cons, Hd, (Hs eq_refl). by rewrite andb_false_r.
  - destruct (IH false) as [Hd _]. split.
    + rewrite has_double_underscore_cons, Hd. unfold is_underscore in Hc.
      by rewrite Hc.
    + intros _. exact Hc.
Qed.

Lemma lstrip_facts p s :
  (all_chars p s = true → all_chars p (lstrip s) = true) ∧
  (has_double_underscore s = false → has_double_underscore (lstrip s) = false) ∧
  starts_with_underscore (lstrip s) = false ∧
  (last_char s ≠ Some "_"%char → last_char (lstrip s) ≠ Some "_"%char).
Proof.
  induction s as [|c rest IH]; [done|]. cbn [lstrip].
  destruct (Ascii.eqb c "_"%char) eqn:Hc.
  - destruct IH as (Ha & Hd & Hs & Hl). repeat split.
    + cbn. intros [_ ?]%andb_prop. auto.
    + intros Hdd. apply Hd. rewrite has_double_underscore_cons in Hdd.
      by apply orb_false_elim in Hdd as [_ ?].
    + done.
    + intros Hlast. apply Hl. destruct rest; [|done].
      cbn in Hlast. apply Ascii.eqb_eq in Hc. congruence.
  - by repeat split.
Qed.

Lemma rstrip_head c rest :
  rstrip (String c rest) = EmptyString ∨
  ∃ tail, rstrip (String c rest) = String c tail.
Proof.
  cbn. destruct (rstrip rest); [|eauto].
  destruct (Ascii.eqb c "_"%char); eauto.
Qed.

Lemma rstrip_facts p s :
  (all_chars p s = true → all_chars p (rstrip s) = true) ∧
  (has_double_underscore s = false → has_double_underscore (rstrip s) = false) ∧
  last_char (rstrip s) ≠ Some "_"%char.
Proof.
  induction s as [|c rest IH]; [done|].
  destruct IH as (Ha & Hd & Hl). cbn [rstrip].
  destruct (rstrip rest) as [|d kept] eqn:Hkept.
  - destruct (Ascii.eqb c "_"%char) eqn:Hc; [done|]. repeat split.
    + cbn. intros [-> _]%andb_prop. done.
    + cbn. intros [= ->]. by rewrite Ascii.eqb_refl in Hc.
  - repeat split.
    + cbn [all_chars]. intros [-> Hrest]%andb_prop. cbn. by apply Ha.
    + intros Hdd. destruct rest as [|d' rest']; [done|].
      destruct (rstrip_head d' rest') as [Hnil|[tail Htail]];
        [by rewrite Hnil in Hkept|].
      rewrite Htail in Hkept. injection Hkept as <- <-.
      rewrite has_double_underscore_cons in Hdd |- *.
      apply orb_false_elim in Hdd as [Hcd Hrest].
      cbn [starts_with_underscore] in Hcd |- *.
      rewrite Hcd. cbn [orb]. by apply Hd.
    + cbn [last_char]. exact Hl.
Qed.

Lemma stripped_facts name :
  all_chars is_identifier_char (stripped ascii_fold name) = true ∧
  has_double_underscore (stripped ascii_fold name) = false ∧
  starts_with_underscore (stripped ascii_fold name) = false ∧
  last_char (stripped ascii_fold name) ≠ Some "_"%char.
Proof.
  unfold stripped, strip.
  set (s := sub_runs _ (lower _)).
  assert (all_chars is_identifier_char s = true) as Hall.
  { apply all_chars_sub_runs; [done|]. apply all_chars_lower.
    by apply all_chars_sub_outside. }
  assert (has_double_underscore s = false) as Hdouble
    by apply (no_double_sub_runs _ false).
  destruct (rstrip_facts is_identifier_char s) as (Ha & Hd & Hl).
  destruct (lstrip_facts is_identifier_char (rstrip s)) as (Ha' & Hd' & Hs' & Hl').
  auto.
Qed.

Lemma _to_identifier_cases name :
  _to_identifier ascii_fold name =
    match stripped ascii_fold name with
    | EmptyString => "_unknown"
    | String c tail =>
        if isdigit c then String "_"%char (String c tail) else String c tail
    end.
Proof.
  unfold _to_identifier. fold (stripped ascii_fold name).
  destruct (stripped ascii_fold name) as [|c tail]; [reflexivity|].
  by destruct (isdigit c).
Qed.

End identifier_facts.

(** X16. Whatever the station's name and whatever Unicode folding
    yields, [_to_identifier] returns a string that can be written as a
    Python identifier: it is not empty, it consists of lower-case
    letters, digits and underscores, it does not start with a digit, it
    has no two underscores in a row and it does not end with one. *)
Theorem identifier_is_well_formed (ascii_fold : string → string) (name : string) :
  let ident := generate_station_codes._to_identifier ascii_fold name in
  ident ≠ "" ∧
  generate_station_codes.all_chars generate_station_codes.is_identifier_char ident = true ∧
  (∀ c tail, ident = String c tail → generate_station_codes.isdigit c = false) ∧
  generate_station_codes.has_double_underscore ident = false ∧
  generate_station_codes.last_char ident ≠ Some "_"%char.
Proof.
  cbn zeta. rewrite _to_identifier_cases.
  destruct (stripped_facts ascii_fold name) as (Hall & Hdouble & Hstart & Hlast).
  destruct (generate_station_codes.stripped ascii_fold name) as [|c tail];
    [by repeat split; try done; intros ? ? [= <- <-]|].
  destruct (generate_station_codes.isdigit c) eqn:Hdigit.
  - repeat split; try done.
    + intros ? ? [= <- <-]. done.
    + rewrite has_double_underscore_cons, Hstart, Hdouble.
      by rewrite andb_false_r.
  - repeat split; try done. by intros ? ? [= <- <-].
Qed.

Lemma identifier_is_well_formed_witness :
  generate_station_codes._to_identifier generate_station_codes.ascii_only
    "2e Exloermond" = "_2e_exloermond" ∧
  generate_station_codes.isdigit "_"%char = false.
Proof.
  split; [reflexivity|].
  destruct (identifier_is_well_formed generate_station_codes.ascii_only "2e Exloermond")
    as (_ & _ & Hstart & _).
  exact (Hstart "_"%char "2e_exloermond" eq_refl).
Defined.

(** The generator on names as the NS API has them. *)
Example _to_identifier_examples :
  let ident := generate_station_codes._to_identifier generate_station_codes.ascii_only in
  ident "Amsterdam Centraal" = "amsterdam_centraal" ∧
  ident "'s-Hertogenbosch" = "s_hertogenbosch" ∧
  ident "Frankfurt (M) Hbf" = "frankfurt_m_hbf" ∧
  ident "St. Pancras / London" = "st_pancras_london" ∧
  ident " - " = "_unknown" ∧
  ident "" = "_unknown".
Proof. repeat split; reflexivity. Qed.

(** ** What a deprecation warning says *)

(** X17. Every warning an operation emits is a [DeprecationWarning]
    raised with [stacklevel=2], so that it points at the caller's line;
    the warning for a deprecated parameter starts by naming that
    parameter, the warning for a deprecated method by naming that
    method. *)
Theorem warnings_name_their_subject `{External} (op : operation) (w : world) :
  Forall (λ notice, warn_category notice = DeprecationWarning ∧
                    warn_stacklevel notice = 2)
         (emitted_by (perform op) w) ∧
  (∀ name k v text, (name, k, v, text) ∈ deprecated_args op →
     String.prefix ("The '" +:+ name +:+ "' parameter is deprecated") text = true) ∧
  (∀ text, deprecated_method op = Some text →
     String.prefix (deprecated_method_name op +:+ "() is deprecated by NS. Use ") text
       = true).
Proof.
  split; [|split].
  - rewrite emitted_by_perform. unfold deprecation_notices.
    apply Forall_app. split.
    + apply Forall_fmap, Forall_true. done.
    + destruct (deprecated_method op); repeat constructor.
  - intros name k v text Hin. destruct op; cbn [deprecated_args] in Hin;
      try by apply elem_of_nil in Hin.
    all: repeat (apply elem_of_cons in Hin as [[= -> -> -> ->]|Hin];
                 [reflexivity|]).
    all: by apply elem_of_nil in Hin.
  - intros text Htext. destruct op; try discriminate;
      injection Htext as <-; reflexivity.
Qed.

Lemma warnings_name_their_subject_witness :
  deprecated_method station_disruptions_ASD =
    Some ("list_station_disruptions() is deprecated by NS. Use " +:+
          "client.disruptions.list_for_station() instead, which uses the " +:+
          "dedicated Disruptions API (https://gateway.apiportal.ns.nl/disruptions).") ∧
  String.prefix "list_station_disruptions() is deprecated by NS. Use "
    ("list_station_disruptions() is deprecated by NS. Use " +:+
     "client.disruptions.list_for_station() instead, which uses the " +:+
     "dedicated Disruptions API (https://gateway.apiportal.ns.nl/disruptions).") = true.
Proof.
  assert (deprecated_method station_disruptions_ASD =
    Some ("list_station_disruptions() is deprecated by NS. Use " +:+
          "client.disruptions.list_for_station() instead, which uses the " +:+
          "dedicated Disruptions API (https://gateway.apiportal.ns.nl/disruptions)."))
    as Htext by reflexivity.
  split; [exact Htext|].
  destruct (@warnings_name_their_subject demo_external station_disruptions_ASD
              fresh_world) as (_ & _ & Hmethod).
  exact (Hmethod _ Htext).
Defined.
